(** * IurisLab: prompt construction and session store of [src/app.py]

    A shallow embedding of the service's core: the text truncation, the
    prompt builder [construir_prompt], the completion gateway
    [llamar_modelo], the in-memory session store [SESIONES] with
    [crear_sesion] / [registrar_consulta], and the request handlers that
    sequence them.

    Python strings are sequences of Unicode code points, so a [str] is a
    list of code points here; the literals of the source are written as
    UTF-8 text and decoded by [u8]. *)

From stdpp Require Import base option list strings gmap.
From Stdlib Require Import ZArith NArith QArith Ascii DecimalString Lia.

Local Open Scope Z_scope.

(** ** Python strings *)

Module PyStr.

(** A Python [str]: its code points, in order. *)
Abbreviation str := (list N).

Definition bytes_of_string (s : string) : list N :=
  (fun a => Ascii.N_of_ascii a) <$> String.list_ascii_of_string s.

Definition cont (b : N) : N := N.land b 63.

(** UTF-8 decoding of the bytes of a source literal (1 to 4 byte forms;
    a truncated sequence at the end is dropped). *)
Fixpoint utf8_decode (bs : list N) : str :=
  match bs with
  | [] => []
  | b0 :: r0 =>
    if (b0 <? 128)%N then b0 :: utf8_decode r0
    else if (b0 <? 224)%N then
      match r0 with
      | b1 :: r1 => (N.shiftl (N.land b0 31) 6 + cont b1)%N :: utf8_decode r1
      | _ => []
      end
    else if (b0 <? 240)%N then
      match r0 with
      | b1 :: b2 :: r2 =>
        (N.shiftl (N.land b0 15) 12 + N.shiftl (cont b1) 6 + cont b2)%N
          :: utf8_decode r2
      | _ => []
      end
    else
      match r0 with
      | b1 :: b2 :: b3 :: r3 =>
        (N.shiftl (N.land b0 7) 18 + N.shiftl (cont b1) 12
         + N.shiftl (cont b2) 6 + cont b3)%N :: utf8_decode r3
      | _ => []
      end
  end.

(** The code points of a literal of the source. *)
Definition u8 (s : string) : str := utf8_decode (bytes_of_string s).

(** [Py_UNICODE_ISSPACE]: the characters [str.strip()] removes. *)
Definition isspace (c : N) : bool :=
  ((9 <=? c) && (c <=? 13) || (28 <=? c) && (c <=? 32)
   || (c =? 133) || (c =? 160) || (c =? 5760)
   || (8192 <=? c) && (c <=? 8202)
   || (c =? 8232) || (c =? 8233) || (c =? 8239) || (c =? 8287)
   || (c =? 12288))%N.

Fixpoint lstrip (s : str) : str :=
  match s with
  | c :: r => if isspace c then lstrip r else s
  | [] => []
  end.

Definition rstrip (s : str) : str := reverse (lstrip (reverse s)).

(** [s.strip()] with no argument. *)
Definition strip (s : str) : str := rstrip (lstrip s).

(** Truth value of a [str]: non-empty. *)
Definition truthy (s : str) : bool :=
  match s with [] => false | _ => true end.

(** [s[:stop]]: a negative stop counts from the end, and the bound is
    clamped to the length. *)
Definition slice_to {A} (stop : Z) (s : list A) : list A :=
  let n := Z.of_nat (length s) in
  let stop' := if stop <? 0 then Z.max 0 (stop + n) else Z.min stop n in
  take (Z.to_nat stop') s.

(** [str(n)] for a non-negative integer. *)
Definition str_of_Z (n : Z) : str :=
  bytes_of_string
    (NilEmpty.string_of_int (Z.to_int n)).

End PyStr.

Import PyStr.

(** ** Configuration *)

Definition MAX_CHARS_SENTENCIA : Z := 6000.
Definition MAX_FILES_LOTE : Z := 10.

Definition PROMPT_JURIDICO_BASE : str := u8
  "Eres un asistente jurídico especializado en el análisis de resoluciones judiciales españolas. "
  ++ u8 "Tu función es extraer información jurídica relevante de forma objetiva y técnica. "
  ++ u8 "No emites dictámenes jurídicos ni valoraciones personales. "
  ++ u8 "No realizas inferencias no fundamentadas en el texto. "
  ++ u8 "Si una información no consta expresamente en la sentencia, debes indicarlo de forma clara. "
  ++ u8 "Debes limitar tu respuesta estrictamente a la tarea solicitada en cada consulta.".

(** ** Prompt builder *)

Definition NL : str := [10%N].

(** The literal parts of the templates of [construir_prompt]; every
    template is a triple-quoted string, so it opens with a newline. *)

Definition CABECERA_SUJETOS : str := u8 "
Identifica exclusivamente los sujetos intervinientes en la resolución judicial
y su posición procesal (demandante, demandado, acusado, Ministerio Fiscal,
Administración, etc.).

No incluyas hechos, fundamentos jurídicos, ratio decidendi ni fallo.

SENTENCIA:
".

Definition CABECERA_RATIO : str := u8 "
Identifica exclusivamente la ratio decidendi de la sentencia.

Limita tu respuesta únicamente a la razón jurídica fundamental
que justifica el fallo.

No incluyas información sobre las partes, hechos ni el fallo.

SENTENCIA:
".

Definition CABECERA_NORMATIVA : str := u8 "
Identifica exclusivamente la normativa aplicada en la resolución judicial.

Incluye leyes, reglamentos o preceptos citados expresamente.
No incluyas hechos, análisis del caso, ratio decidendi ni fallo.

SENTENCIA:
".

Definition CABECERA_FALLO : str := u8 "
Resume exclusivamente el fallo de la sentencia en una única frase clara y precisa.

No incluyas fundamentos jurídicos, hechos ni ratio decidendi.

SENTENCIA:
".

Definition CABECERA_CONSECUENCIA : str := u8 "
Identifica exclusivamente la consecuencia jurídica impuesta en la resolución
(pena, sanción, condena u obligación).

No incluyas otros aspectos de la sentencia.

SENTENCIA:
".

Definition PROMPT_SIN_PREGUNTA : str := u8 "
Has seleccionado “Otra cuestión jurídica o fáctica”, pero no se ha proporcionado una pregunta.
Indica: “No se ha proporcionado pregunta”.
".

Definition CABECERA_OTRO : str := u8 "
Responde exclusivamente a la siguiente cuestión jurídica o fáctica,
basándote únicamente en el texto de la sentencia proporcionada.

Si la información no consta expresamente, indícalo de forma clara.

CUESTIÓN PLANTEADA:
".

Definition SEPARADOR_SENTENCIA : str := u8 "

SENTENCIA:
".

Definition CABECERA_GENERAL : str := u8 "
Analiza jurídicamente la siguiente sentencia de forma objetiva.

SENTENCIA:
".

(** [not pregunta or not pregunta.strip()] for [pregunta : Optional[str]]. *)
Definition sin_pregunta (pregunta : option str) : bool :=
  match pregunta with
  | None => true
  | Some p => negb (truthy p) || negb (truthy (strip p))
  end.

Definition construir_prompt (tipo texto : str) (pregunta : option str) : str :=
  if decide (tipo = u8 "sujetos") then CABECERA_SUJETOS ++ texto ++ NL
  else if decide (tipo = u8 "ratio") then CABECERA_RATIO ++ texto ++ NL
  else if decide (tipo = u8 "normativa") then CABECERA_NORMATIVA ++ texto ++ NL
  else if decide (tipo = u8 "fallo") then CABECERA_FALLO ++ texto ++ NL
  else if decide (tipo = u8 "consecuencia") then
    CABECERA_CONSECUENCIA ++ texto ++ NL
  else if decide (tipo = u8 "otro") then
    if sin_pregunta pregunta then PROMPT_SIN_PREGUNTA
    else CABECERA_OTRO ++ default [] pregunta ++ SEPARADOR_SENTENCIA
           ++ texto ++ NL
  else CABECERA_GENERAL ++ texto ++ NL.

(** ** Exceptions, the session store and the outside world *)

(** [OtraExcepcion] stands for any exception that is neither of the two
    before it, such as those of the template engine, by its message. *)
Inductive excepcion : Type :=
| HTTPException (status_code : Z) (detail : str)
| KeyError (clave : str)
| OtraExcepcion (mensaje : str).

(** One entry of a session's ["consultas"] list. *)
Module Consulta.
Record t : Type := Build
  { timestamp : str; tipo_analisis : str; pregunta : option str;
    resultado : str }.
End Consulta.

(** One value of the [SESIONES] dictionary. *)
Module Sesion.
Record t : Type := Build
  { created_at : str; archivo : str; texto_sentencia : str;
    consultas : list Consulta.t }.
End Sesion.

(** What [pypdf] makes of an uploaded file: the reader raises, or it
    yields pages whose [extract_text()] returns a string, [None], or
    raises. [str(e)] stands for the exception. *)
Inductive pagina : Type :=
| ExtractText (t : option str)
| ExtractRaises (e : str).

Inductive lectura_pdf : Type :=
| ReaderRaises (e : str)
| ReaderPages (pages : list pagina).

Record UploadFile : Type :=
  { filename : str; file : lectura_pdf }.

(** The arguments of [client.chat.completions.create]. *)
Record peticion : Type :=
  { model : str; messages : list (str * str); temperature : Q }.

(** Its outcome: an exception, or a response whose [choices] are given
    by their [message.content]. *)
Inductive respuesta_modelo : Type :=
| CreateRaises (e : str)
| CreateReturns (choices : list str).

(** The context handed to a template: the keys ["resultado"] and
    ["session_id"], the second absent on the start page. The request
    object that goes with them comes from the framework. *)
Record contexto : Type :=
  { ctx_resultado : option str; ctx_session_id : option str }.

(** The outcome of [templates.TemplateResponse]: the template cannot be
    loaded or rendered, or the page is made. *)
Inductive respuesta_plantilla : Type :=
| TemplateRaises (e : str)
| TemplateReturns (body : str).

(** Calls that leave the process, in the order they are made. *)
Inductive evento : Type :=
| EvPdf (nombre : str)
| EvModelo (p : peticion)
| EvUuid4
| EvUtcnow
| EvPlantilla (nombre : str) (c : contexto).

Record mundo : Type :=
  { SESIONES : gmap str Sesion.t; traza : list evento }.

Definition con_sesiones (f : gmap str Sesion.t -> gmap str Sesion.t)
    (w : mundo) : mundo :=
  {| SESIONES := f (SESIONES w); traza := traza w |}.

Definition anotar (e : evento) (w : mundo) : mundo :=
  {| SESIONES := SESIONES w; traza := traza w ++ [e] |}.

(** A computation reads and writes the world and returns a value or
    raises; what it did to the world before raising stays done. *)
Definition M (A : Type) : Type := mundo -> (excepcion + A) * mundo.

Definition ret {A} (a : A) : M A := fun w => (inr a, w).

Definition raise {A} (e : excepcion) : M A := fun w => (inl e, w).

Definition bind {A B} (m : M A) (k : A -> M B) : M B :=
  fun w =>
    match m w with
    | (inr a, w') => k a w'
    | (inl e, w') => (inl e, w')
    end.

Declare Scope py_scope.
Delimit Scope py_scope with py.
Notation "x <- m ;; k" := (bind m (fun x => k))
  (at level 100, m at next level, right associativity) : py_scope.
Notation "m ;;; k" := (bind m (fun _ => k))
  (at level 100, right associativity) : py_scope.

Section Servicio.

(** The sources of values the service does not compute itself, read at
    the position of the call in the trace: [str(uuid4())],
    [datetime.utcnow().isoformat()], the provider's reply, and what the
    template engine makes of a template and its context. *)
Variable str_uuid4 : nat -> str.
Variable utcnow_isoformat : nat -> str.
Variable chat_completions_create : nat -> peticion -> respuesta_modelo.
Variable template_response : nat -> str -> contexto -> respuesta_plantilla.

(** [x or ""] *)
Definition or_vacio (x : option str) : str :=
  match x with
  | Some t => if truthy t then t else []
  | None => []
  end.

Fixpoint extraer_paginas (pages : list pagina) (texto : str) : str + str :=
  match pages with
  | [] => inr texto
  | ExtractText t :: r => extraer_paginas r (texto ++ or_vacio t)
  | ExtractRaises e :: _ => inl e
  end.

Definition leer_pdf (f : UploadFile) : M str := fun w =>
  let w' := anotar (EvPdf (filename f)) w in
  let fallo e :=
    (inl (HTTPException 400 (u8 "No se pudo leer el PDF: " ++ e)), w') in
  match file f with
  | ReaderRaises e => fallo e
  | ReaderPages pages =>
    match extraer_paginas pages [] with
    | inl e => fallo e
    | inr texto => (inr texto, w')
    end
  end.

Definition peticion_de (prompt : str) : peticion :=
  {| model := u8 "gpt-4o-mini";
     messages := [(u8 "system", PROMPT_JURIDICO_BASE); (u8 "user", prompt)];
     temperature := (2 # 10)%Q |}.

Definition llamar_modelo (prompt : str) : M str := fun w =>
  let w' := anotar (EvModelo (peticion_de prompt)) w in
  let fallo e :=
    (inl (HTTPException 500 (u8 "Error al llamar al modelo: " ++ e)), w') in
  match chat_completions_create (length (traza w)) (peticion_de prompt) with
  | CreateRaises e => fallo e
  | CreateReturns [] => fallo (u8 "list index out of range")
  | CreateReturns (content :: _) => (inr content, w')
  end.

Definition crear_sesion (texto_sentencia nombre_archivo : str) : M str :=
  fun w =>
    let session_id := str_uuid4 (length (traza w)) in
    let w1 := anotar EvUuid4 w in
    let ahora := utcnow_isoformat (length (traza w1)) ++ u8 "Z" in
    let w2 := anotar EvUtcnow w1 in
    (inr session_id,
     con_sesiones
       (insert session_id
          {| Sesion.created_at := ahora;
             Sesion.archivo := nombre_archivo;
             Sesion.texto_sentencia := texto_sentencia;
             Sesion.consultas := [] |}) w2).

Definition con_consulta (c : Consulta.t) (s : Sesion.t) : Sesion.t :=
  {| Sesion.created_at := Sesion.created_at s;
     Sesion.archivo := Sesion.archivo s;
     Sesion.texto_sentencia := Sesion.texto_sentencia s;
     Sesion.consultas := Sesion.consultas s ++ [c] |}.

Definition registrar_consulta (session_id tipo_analisis : str)
    (pregunta : option str) (resultado : str) : M () :=
  fun w =>
    match SESIONES w !! session_id with
    | Some s =>
      let ahora := utcnow_isoformat (length (traza w)) ++ u8 "Z" in
      let c := {| Consulta.timestamp := ahora;
                  Consulta.tipo_analisis := tipo_analisis;
                  Consulta.pregunta := pregunta;
                  Consulta.resultado := resultado |} in
      (inr (), con_sesiones (insert session_id (con_consulta c s))
                 (anotar EvUtcnow w))
    | None => (inr (), w)
    end.

(** [session_id in SESIONES] and [SESIONES[session_id]]. *)
Definition en_sesiones (session_id : str) : M bool := fun w =>
  (inr (bool_decide (is_Some (SESIONES w !! session_id))), w).

Definition sesion_de (session_id : str) : M Sesion.t := fun w =>
  match SESIONES w !! session_id with
  | Some s => (inr s, w)
  | None => (inl (KeyError session_id), w)
  end.

Local Open Scope py_scope.

(** *** Handlers *)

(** [templates.TemplateResponse(nombre, contexto)]: the page, made when
    the response is built, so a failure of the template is raised inside
    the handler. *)
Definition TemplateResponse (nombre : str) (c : contexto) : M str := fun w =>
  let w' := anotar (EvPlantilla nombre c) w in
  match template_response (length (traza w)) nombre c with
  | TemplateRaises e => (inl (OtraExcepcion e), w')
  | TemplateReturns body => (inr body, w')
  end.

(** [GET /]: the page with an empty result slot. *)
Definition home : M str :=
  TemplateResponse (u8 "index.html")
    {| ctx_resultado := None; ctx_session_id := None |}.

(** The page answered by [/analizar], with the result and the session
    identifier it was made from. *)
Record respuesta_html : Type :=
  { html_resultado : str; html_session_id : str; html_body : str }.

Definition analizar (tipo_analisis : str) (archivo : UploadFile)
    (pregunta : option str) : M respuesta_html :=
  texto <- leer_pdf archivo ;;
  let texto_recortado := slice_to MAX_CHARS_SENTENCIA texto in
  let prompt := construir_prompt tipo_analisis texto_recortado pregunta in
  resultado <- llamar_modelo prompt ;;
  session_id <- crear_sesion texto_recortado (filename archivo) ;;
  registrar_consulta session_id tipo_analisis pregunta resultado ;;;
  body <- TemplateResponse (u8 "index.html")
            {| ctx_resultado := Some resultado;
               ctx_session_id := Some session_id |} ;;
  ret {| html_resultado := resultado; html_session_id := session_id;
         html_body := body |}.

Record respuesta_json : Type :=
  { json_session_id : str; json_tipo_analisis : str; json_archivo : str;
    json_resultado : str }.

Definition analizar_json (tipo_analisis : str) (archivo : UploadFile)
    (pregunta : option str) : M respuesta_json :=
  texto <- leer_pdf archivo ;;
  let texto_recortado := slice_to MAX_CHARS_SENTENCIA texto in
  let prompt := construir_prompt tipo_analisis texto_recortado pregunta in
  resultado <- llamar_modelo prompt ;;
  session_id <- crear_sesion texto_recortado (filename archivo) ;;
  registrar_consulta session_id tipo_analisis pregunta resultado ;;;
  ret {| json_session_id := session_id;
         json_tipo_analisis := tipo_analisis;
         json_archivo := filename archivo;
         json_resultado := resultado |}.

Record resultado_lote : Type :=
  { lote_archivo : str; lote_resultado : str }.

Record respuesta_lote : Type :=
  { lote_tipo_analisis : str; numero_sentencias : Z;
    resultados : list resultado_lote }.

(** The [for a in archivos] loop, [resultados] being the list built so
    far. *)
Fixpoint bucle_lote (tipo_analisis : str) (pregunta : option str)
    (archivos : list UploadFile) (resultados : list resultado_lote)
    : M (list resultado_lote) :=
  match archivos with
  | [] => ret resultados
  | a :: resto =>
    leido <- leer_pdf a ;;
    let texto := slice_to MAX_CHARS_SENTENCIA leido in
    let prompt := construir_prompt tipo_analisis texto pregunta in
    res <- llamar_modelo prompt ;;
    bucle_lote tipo_analisis pregunta resto
      (resultados ++ [{| lote_archivo := filename a; lote_resultado := res |}])
  end.

Definition DETALLE_LOTE : str :=
  u8 "Máximo " ++ str_of_Z MAX_FILES_LOTE ++ u8 " archivos por lote.".

Definition analizar_lote (tipo_analisis : str) (archivos : list UploadFile)
    (pregunta : option str) : M respuesta_lote :=
  if Z.of_nat (length archivos) >? MAX_FILES_LOTE
  then raise (HTTPException 400 DETALLE_LOTE)
  else
    rs <- bucle_lote tipo_analisis pregunta archivos [] ;;
    ret {| lote_tipo_analisis := tipo_analisis;
           numero_sentencias := Z.of_nat (length archivos);
           resultados := rs |}.

Definition NO_ENCONTRADA : excepcion :=
  HTTPException 404 (u8 "Sesión no encontrada o caducada.").

Record respuesta_sesion : Type :=
  { rs_session_id : str; rs_tipo_analisis : str; rs_archivo : str;
    rs_resultado : str; consultas_previas : Z }.

Definition analizar_sesion (session_id tipo_analisis : str)
    (pregunta : option str) : M respuesta_sesion :=
  presente <- en_sesiones session_id ;;
  if negb presente then raise NO_ENCONTRADA
  else
    s <- sesion_de session_id ;;
    let texto := Sesion.texto_sentencia s in
    let prompt := construir_prompt tipo_analisis texto pregunta in
    resultado <- llamar_modelo prompt ;;
    registrar_consulta session_id tipo_analisis pregunta resultado ;;;
    s1 <- sesion_de session_id ;;
    s2 <- sesion_de session_id ;;
    ret {| rs_session_id := session_id;
           rs_tipo_analisis := tipo_analisis;
           rs_archivo := Sesion.archivo s1;
           rs_resultado := resultado;
           consultas_previas := Z.of_nat (length (Sesion.consultas s2)) |}.

Definition ver_sesion (session_id : str) : M Sesion.t :=
  presente <- en_sesiones session_id ;;
  if negb presente then raise NO_ENCONTRADA
  else sesion_de session_id.

End Servicio.

(** ** Substrings *)

(** [t in l] for strings, as a scan over the start positions. *)
Fixpoint empieza_por (t l : str) : bool :=
  match t, l with
  | [], _ => true
  | a :: t', b :: l' => (a =? b)%N && empieza_por t' l'
  | _ :: _, [] => false
  end.

Fixpoint contiene (t l : str) : bool :=
  empieza_por t l
  || match l with
     | [] => false
     | _ :: l' => contiene t l'
     end.

(** The question is missing, empty, or made of white space only. *)
Definition en_blanco (pregunta : option str) : Prop :=
  match pregunta with
  | None => True
  | Some p => Forall (fun c => isspace c = true) p
  end.

(** ** Observations used in the statements *)

(** The fields of a history entry that the caller passes. *)
Definition campos (c : Consulta.t) : str * option str * str :=
  (Consulta.tipo_analisis c, Consulta.pregunta c, Consulta.resultado c).

(** [s'] is [s] with the entries [cs] added at the end of its history and
    nothing else changed. *)
Definition solo_historial (s s' : Sesion.t) (cs : list Consulta.t) : Prop :=
  Sesion.created_at s' = Sesion.created_at s
  /\ Sesion.archivo s' = Sesion.archivo s
  /\ Sesion.texto_sentencia s' = Sesion.texto_sentencia s
  /\ Sesion.consultas s' = Sesion.consultas s ++ cs.

(** Every session other than [session_id] is the same in both worlds. *)
Definition otras_intactas (session_id : str) (w w' : mundo) : Prop :=
  forall otra, otra <> session_id -> SESIONES w' !! otra = SESIONES w !! otra.

(** Successive calls of [registrar_consulta] on one session. *)
Fixpoint registrar_todas (utcnow_isoformat : nat -> str) (session_id : str)
    (qs : list (str * option str * str)) : M () :=
  match qs with
  | [] => ret ()
  | (tipo, pregunta, resultado) :: qs' =>
    bind (registrar_consulta utcnow_isoformat session_id tipo pregunta
            resultado)
         (fun _ => registrar_todas utcnow_isoformat session_id qs')
  end.

(** The two errors the processing of a document can end in. *)
Definition error_de_proceso (e : excepcion) : Prop :=
  (exists causa,
     e = HTTPException 400 (u8 "No se pudo leer el PDF: " ++ causa))
  \/ (exists causa,
       e = HTTPException 500 (u8 "Error al llamar al modelo: " ++ causa)).

(** What a single-document handler may leave behind: on an error the
    store it found, on success the store with one session added under the
    returned identifier, holding the one query just answered. *)
Definition sesion_solo_con_respuesta {R} (sid res : R -> str) (tipo : str)
    (pregunta : option str) (archivo : UploadFile) (w : mundo)
    (salida : (excepcion + R) * mundo) : Prop :=
  match salida with
  | (inl e, w') => SESIONES w' = SESIONES w /\ error_de_proceso e
  | (inr r, w') =>
    exists s c,
      SESIONES w' = <[sid r := s]> (SESIONES w)
      /\ Sesion.archivo s = filename archivo
      /\ Sesion.consultas s = [c]
      /\ campos c = (tipo, pregunta, res r)
  end.

(** What [/analizar] may leave behind: as above, and besides, on an
    error of the template, the store with the session of the answer
    that was obtained. *)
Definition sesion_solo_con_respuesta_html
    (chat_completions_create : nat -> peticion -> respuesta_modelo)
    (tipo : str) (pregunta : option str) (archivo : UploadFile) (w : mundo)
    (salida : (excepcion + respuesta_html) * mundo) : Prop :=
  match salida with
  | (inl e, w') =>
    (SESIONES w' = SESIONES w /\ error_de_proceso e)
    \/ (exists texto w1 content w2 session_id s c causa,
          leer_pdf archivo w = (inr texto, w1)
          /\ llamar_modelo chat_completions_create
               (construir_prompt tipo (slice_to MAX_CHARS_SENTENCIA texto)
                  pregunta) w1 = (inr content, w2)
          /\ e = OtraExcepcion causa
          /\ SESIONES w' = <[session_id := s]> (SESIONES w)
          /\ Sesion.archivo s = filename archivo
          /\ Sesion.consultas s = [c]
          /\ campos c = (tipo, pregunta, content))
  | (inr r, w') =>
    exists s c,
      SESIONES w' = <[html_session_id r := s]> (SESIONES w)
      /\ Sesion.archivo s = filename archivo
      /\ Sesion.consultas s = [c]
      /\ campos c = (tipo, pregunta, html_resultado r)
  end.

(** ** The routes and further observations *)

(** The category strings [construir_prompt] tests for. *)
Definition TIPOS_CONOCIDOS : list str :=
  [u8 "sujetos"; u8 "ratio"; u8 "normativa"; u8 "fallo"; u8 "consecuencia";
   u8 "otro"].

(** What [pypdf] gives for an upload: the whole text, or the message of
    the exception that ended the reading. *)
Definition texto_pdf (f : UploadFile) : str + str :=
  match file f with
  | ReaderRaises e => inl e
  | ReaderPages pages => extraer_paginas pages []
  end.

(** The requests the service routes. *)
Inductive solicitud : Type :=
| GetHome
| PostAnalizar (tipo : str) (archivo : UploadFile) (pregunta : option str)
| PostAnalizarJson (tipo : str) (archivo : UploadFile)
    (pregunta : option str)
| PostAnalizarLote (tipo : str) (archivos : list UploadFile)
    (pregunta : option str)
| PostAnalizarSesion (session_id tipo : str) (pregunta : option str)
| GetSesion (session_id : str).

(** The world after a request was handled, whatever it answered; the
    handlers contain no suspension point, so requests are handled one
    after another. *)
Definition atender (str_uuid4 utcnow_isoformat : nat -> str)
    (chat_completions_create : nat -> peticion -> respuesta_modelo)
    (template_response : nat -> str -> contexto -> respuesta_plantilla)
    (r : solicitud) (w : mundo) : mundo :=
  match r with
  | GetHome => snd (home template_response w)
  | PostAnalizar tipo archivo pregunta =>
    snd (analizar str_uuid4 utcnow_isoformat chat_completions_create
           template_response tipo archivo pregunta w)
  | PostAnalizarJson tipo archivo pregunta =>
    snd (analizar_json str_uuid4 utcnow_isoformat chat_completions_create
           tipo archivo pregunta w)
  | PostAnalizarLote tipo archivos pregunta =>
    snd (analizar_lote chat_completions_create tipo archivos pregunta w)
  | PostAnalizarSesion session_id tipo pregunta =>
    snd (analizar_sesion utcnow_isoformat chat_completions_create session_id
           tipo pregunta w)
  | GetSesion session_id => snd (ver_sesion session_id w)
  end.

Definition servir (str_uuid4 utcnow_isoformat : nat -> str)
    (chat_completions_create : nat -> peticion -> respuesta_modelo)
    (template_response : nat -> str -> contexto -> respuesta_plantilla)
    (rs : list solicitud) (w : mundo) : mundo :=
  foldl (fun w' r =>
           atender str_uuid4 utcnow_isoformat chat_completions_create
             template_response r w')
    w rs.

(** Every stored text fits the character budget and every stored session
    has at least one query in its history. *)
Definition almacen_ok (w : mundo) : Prop :=
  map_Forall
    (fun _ s =>
       Z.of_nat (length (Sesion.texto_sentencia s)) <= MAX_CHARS_SENTENCIA
       /\ Sesion.consultas s <> [])
    (SESIONES w).

(** ** Sample data *)

Definition mundo_vacio : mundo := {| SESIONES := ∅; traza := [] |}.

Definition consulta_ej : Consulta.t :=
  {| Consulta.timestamp := u8 "2024-05-01T10:00:00Z";
     Consulta.tipo_analisis := u8 "fallo";
     Consulta.pregunta := None;
     Consulta.resultado := u8 "Se desestima el recurso." |}.

Definition sesion_ej : Sesion.t :=
  {| Sesion.created_at := u8 "2024-05-01T10:00:00Z";
     Sesion.archivo := u8 "a.pdf";
     Sesion.texto_sentencia := u8 "STS 123/2020";
     Sesion.consultas := [consulta_ej] |}.

Definition mundo_ej : mundo :=
  {| SESIONES := <[u8 "s1" := sesion_ej]> ∅; traza := [] |}.

Definition pdf_ej : UploadFile :=
  {| filename := u8 "a.pdf";
     file :=
       ReaderPages [ExtractText (Some (u8 "STS 123/2020")); ExtractText None] |}.

Definition pdf_roto : UploadFile :=
  {| filename := u8 "b.pdf";
     file := ReaderRaises (u8 "EOF marker not found") |}.

Definition uuid_ej (n : nat) : str := u8 "s" ++ str_of_Z (Z.of_nat n).
Definition reloj_ej (n : nat) : str :=
  u8 "2024-05-01T10:00:0" ++ str_of_Z (Z.of_nat n).
Definition modelo_ej (n : nat) (p : peticion) : respuesta_modelo :=
  CreateReturns [u8 "Respuesta del modelo."].
Definition modelo_caido (causa : str) (n : nat) (p : peticion)
    : respuesta_modelo :=
  CreateRaises causa.
Definition plantilla_ej (n : nat) (nombre : str) (c : contexto)
    : respuesta_plantilla :=
  TemplateReturns (u8 "<html>" ++ default [] (ctx_resultado c) ++ u8 "</html>").
Definition plantilla_rota (n : nat) (nombre : str) (c : contexto)
    : respuesta_plantilla :=
  TemplateRaises (u8 "index.html").

(** An identifier source that gives ["s2"] up to position 2 and another
    identifier from then on, and the world after one upload with it. *)
Definition uuid_dos (n : nat) : str :=
  if Nat.leb n 2 then u8 "s2" else u8 "t9".
Definition mundo_subido : mundo :=
  servir uuid_dos reloj_ej modelo_ej plantilla_ej
    [PostAnalizarJson (u8 "fallo") pdf_ej None] mundo_vacio.

(** * Properties *)

Section Cadenas.



Lemma lstrip_nil (s : str) :
  lstrip s = [] <-> Forall (fun c => isspace c = true) s.
Proof.
  induction s as [|c s IH]; simpl; [done |].
  destruct (isspace c) eqn:Hc.
  - rewrite IH. split; [by constructor | by inversion 1].
  - split; [done |]. inversion 1; congruence.
Qed.

Lemma lstrip_idem (s : str) : lstrip (lstrip s) = lstrip s.
Proof.
  induction s as [|c s IH]; simpl; [done |].
  destruct (isspace c) eqn:Hc; [done |]. simpl. by rewrite Hc.
Qed.

Lemma strip_nil (s : str) :
  strip s = [] <-> Forall (fun c => isspace c = true) s.
Proof.
  unfold strip, rstrip. split.
  - intros H. apply lstrip_nil. rewrite <- lstrip_idem. apply lstrip_nil.
    apply (f_equal reverse) in H. rewrite reverse_involutive in H.
    apply lstrip_nil in H. rewrite <- (reverse_involutive (lstrip s)).
    by apply Forall_reverse.
  - intros H. apply lstrip_nil in H. by rewrite H.
Qed.

Lemma truthy_false (s : str) : truthy s = false <-> s = [].
Proof. by destruct s. Qed.

Lemma sin_pregunta_spec (pregunta : option str) :
  sin_pregunta pregunta = true <-> en_blanco pregunta.
Proof.
  destruct pregunta as [p|]; simpl; [| done].
  rewrite orb_true_iff, !negb_true_iff, !truthy_false, strip_nil.
  split; [| by right]. intros [-> | H]; [constructor | done].
Qed.

End Cadenas.

(** Settles which branch of [construir_prompt] a literal category
    takes. *)
Ltac rama :=
  match goal with
  | |- context [decide (?a = ?b)] =>
    destruct (decide (a = b)) as [?E | ?E];
    [ try (exfalso; vm_compute in E; discriminate E)
    | try (exfalso; apply E; reflexivity) ]
  end.

Section Prompt.

Lemma construir_prompt_otro (texto : str) (pregunta : option str) :
  construir_prompt (u8 "otro") texto pregunta =
    if sin_pregunta pregunta then PROMPT_SIN_PREGUNTA
    else CABECERA_OTRO ++ default [] pregunta ++ SEPARADOR_SENTENCIA
           ++ texto ++ NL.
Proof. unfold construir_prompt. by repeat rama. Qed.

(** Outside the no-question branch the prompt is a heading, the text
    and the closing line break. *)
Lemma construir_prompt_forma (tipo : str) (pregunta : option str) :
  ~ (tipo = u8 "otro" /\ sin_pregunta pregunta = true) ->
  exists cabecera, forall texto,
    construir_prompt tipo texto pregunta = cabecera ++ texto ++ NL.
Proof.
  intros Hno. unfold construir_prompt.
  repeat (case_decide; [eexists; intros; reflexivity |]).
  case_decide; [| eexists; intros; reflexivity].
  destruct (sin_pregunta pregunta) eqn:Hs; [by destruct Hno |].
  exists (CABECERA_OTRO ++ default [] pregunta ++ SEPARADOR_SENTENCIA).
  intros texto. by rewrite <- !app_assoc.
Qed.

End Prompt.

Example construir_prompt_desconocido :
  construir_prompt (u8 "unknown_xyz") (u8 "STS 123/2020") None = u8 "
Analiza jurídicamente la siguiente sentencia de forma objetiva.

SENTENCIA:
STS 123/2020
".
Proof. by vm_compute. Qed.

Example construir_prompt_con_pregunta :
  construir_prompt (u8 "otro") (u8 "STS 123/2020") (Some (u8 "¿Hay costas?"))
  = u8 "
Responde exclusivamente a la siguiente cuestión jurídica o fáctica,
basándote únicamente en el texto de la sentencia proporcionada.

Si la información no consta expresamente, indícalo de forma clara.

CUESTIÓN PLANTEADA:
¿Hay costas?

SENTENCIA:
STS 123/2020
".
Proof. by vm_compute. Qed.

(** C3. Truncation [texto[:MAX_CHARS_SENTENCIA]]: a text longer than 6000
    characters is cut to exactly its first 6000 characters, a text of at
    most 6000 characters is returned unchanged, and the empty text gives
    the empty text. *)
Theorem C3_truncation (texto : str) :
  (6000 < Z.of_nat (length texto) ->
     Z.of_nat (length (slice_to MAX_CHARS_SENTENCIA texto)) = 6000
     /\ (exists resto, texto = slice_to MAX_CHARS_SENTENCIA texto ++ resto)
     /\ forall i, Z.of_nat i < 6000 ->
          slice_to MAX_CHARS_SENTENCIA texto !! i = texto !! i)
  /\ (Z.of_nat (length texto) <= 6000 ->
      slice_to MAX_CHARS_SENTENCIA texto = texto)
  /\ slice_to MAX_CHARS_SENTENCIA (@nil N) = [].
Proof.
  unfold slice_to, MAX_CHARS_SENTENCIA.
  change (6000 <? 0) with false. cbv iota. repeat split.
  - rewrite length_take. lia.
  - exists (drop (Z.to_nat (6000 `min` Z.of_nat (length texto))) texto).
    by rewrite take_drop.
  - intros i Hi. apply lookup_take_lt. lia.
  - intros Hle. apply take_ge. lia.
Qed.

Lemma C3_truncation_witness :
  Z.of_nat
    (length (slice_to MAX_CHARS_SENTENCIA (replicate (Z.to_nat 6001) 97%N)))
    = 6000
  /\ slice_to MAX_CHARS_SENTENCIA (u8 "Fallo: se desestima el recurso.")
     = u8 "Fallo: se desestima el recurso.".
Proof.
  split.
  - apply (C3_truncation (replicate (Z.to_nat 6001) 97%N)). by vm_compute.
  - apply (C3_truncation (u8 "Fallo: se desestima el recurso.")).
    by vm_compute.
Defined.

(** C4. With category ["otro"] and a question that is [None], empty or
    white space only, the prompt is the one fixed text that asks to
    state that no question was given, whatever the document text. *)
Theorem C4_sin_pregunta (texto : str) (pregunta : option str) :
  en_blanco pregunta ->
  construir_prompt (u8 "otro") texto pregunta = PROMPT_SIN_PREGUNTA
  /\ contiene (u8 "Indica: “No se ha proporcionado pregunta”.")
       PROMPT_SIN_PREGUNTA = true.
Proof.
  intros H. apply sin_pregunta_spec in H.
  rewrite construir_prompt_otro, H. split; [done | by vm_compute].
Qed.

Lemma C4_sin_pregunta_witness :
  construir_prompt (u8 "otro") (u8 "STS 123/2020") (Some (u8 "  "))
    = PROMPT_SIN_PREGUNTA
  /\ construir_prompt (u8 "otro") (u8 "SAP 7/2019") None
    = PROMPT_SIN_PREGUNTA.
Proof.
  split.
  - apply (C4_sin_pregunta (u8 "STS 123/2020") (Some (u8 "  "))).
    vm_compute. repeat constructor.
  - apply (C4_sin_pregunta (u8 "SAP 7/2019") None). exact I.
Defined.




(** ** The session store *)

Section Sesiones.

Variable utcnow_isoformat : nat -> str.

Lemma registrar_consulta_existente (w : mundo) (session_id : str)
    (s : Sesion.t) (tipo : str) (pregunta : option str) (resultado : str) :
  SESIONES w !! session_id = Some s ->
  exists c,
    registrar_consulta utcnow_isoformat session_id tipo pregunta resultado w
      = (inr (), con_sesiones (insert session_id (con_consulta c s))
                   (anotar EvUtcnow w))
    /\ campos c = (tipo, pregunta, resultado).
Proof.
  intros Hs. unfold registrar_consulta. rewrite Hs. by eexists.
Qed.

Lemma registrar_todas_existente (qs : list (str * option str * str)) :
  forall (w : mundo) (session_id : str) (s : Sesion.t),
    SESIONES w !! session_id = Some s ->
    exists w' s' cs,
      registrar_todas utcnow_isoformat session_id qs w = (inr (), w')
      /\ SESIONES w' !! session_id = Some s'
      /\ solo_historial s s' cs
      /\ campos <$> cs = qs
      /\ otras_intactas session_id w w'.
Proof.
  induction qs as [|[[tipo pregunta] resultado] qs IH]; intros w id s Hs.
  - exists w, s, []. simpl. unfold solo_historial, otras_intactas.
    by rewrite app_nil_r.
  - destruct (registrar_consulta_existente w id s tipo pregunta resultado Hs)
      as (c & Hr & Hc).
    simpl. unfold bind. rewrite Hr.
    destruct (IH (con_sesiones (insert id (con_consulta c s))
                    (anotar EvUtcnow w)) id (con_consulta c s))
      as (w' & s' & cs & Hrun & Hs' & (H1 & H2 & H3 & H4) & Hcs & Hotras).
    { simpl. apply lookup_insert_eq. }
    exists w', s', (c :: cs). rewrite Hrun. repeat split; try done.
    + simpl in H4. by rewrite H4, <- app_assoc.
    + by rewrite fmap_cons, Hc, Hcs.
    + intros otra Hne. rewrite (Hotras otra Hne). simpl.
      by apply lookup_insert_ne.
Qed.

End Sesiones.

Lemma bind_ok {A B} (m : M A) (k : A -> M B) (w w' : mundo) (a : A) :
  m w = (inr a, w') -> bind m k w = k a w'.
Proof. intros H. unfold bind. by rewrite H. Qed.

Lemma bind_error {A B} (m : M A) (k : A -> M B) (w w' : mundo)
    (e : excepcion) :
  m w = (inl e, w') -> bind m k w = (inl e, w').
Proof. intros H. unfold bind. by rewrite H. Qed.

Lemma en_sesiones_existente (w : mundo) (session_id : str) (s : Sesion.t) :
  SESIONES w !! session_id = Some s -> en_sesiones session_id w = (inr true, w).
Proof.
  intros Hs. unfold en_sesiones. by rewrite Hs, bool_decide_eq_true_2 by eauto.
Qed.

Lemma sesion_de_existente (w : mundo) (session_id : str) (s : Sesion.t) :
  SESIONES w !! session_id = Some s -> sesion_de session_id w = (inr s, w).
Proof. intros Hs. unfold sesion_de. by rewrite Hs. Qed.

Lemma ver_sesion_existente (w : mundo) (session_id : str) (s : Sesion.t) :
  SESIONES w !! session_id = Some s -> ver_sesion session_id w = (inr s, w).
Proof.
  intros Hs. unfold ver_sesion.
  erewrite bind_ok by (eapply en_sesiones_existente; eassumption).
  by apply sesion_de_existente.
Qed.

(** C5. For a session identifier that is not in the store,
    [registrar_consulta] returns normally and leaves the whole world, the
    store included, as it was: no session is created. *)
Theorem C5_registrar_desconocida (utcnow_isoformat : nat -> str) (w : mundo)
    (session_id tipo : str) (pregunta : option str) (resultado : str) :
  SESIONES w !! session_id = None ->
  registrar_consulta utcnow_isoformat session_id tipo pregunta resultado w
    = (inr (), w).
Proof. intros Hs. unfold registrar_consulta. by rewrite Hs. Qed.

Lemma C5_registrar_desconocida_witness :
  registrar_consulta reloj_ej (u8 "nonexistent") (u8 "fallo") None
    (u8 "Se desestima.") mundo_ej = (inr (), mundo_ej).
Proof.
  apply (C5_registrar_desconocida reloj_ej mundo_ej (u8 "nonexistent")).
  by vm_compute.
Defined.

(** C8. [crear_sesion] returns an identifier under which the store then
    holds a session with the given text, the given file name and an
    empty history, and [ver_sesion] returns that session. *)
Theorem C8_crear_y_ver (str_uuid4 utcnow_isoformat : nat -> str)
    (texto nombre : str) (w : mundo) :
  exists session_id w' s,
    crear_sesion str_uuid4 utcnow_isoformat texto nombre w
      = (inr session_id, w')
    /\ SESIONES w' !! session_id = Some s
    /\ ver_sesion session_id w' = (inr s, w')
    /\ Sesion.texto_sentencia s = texto
    /\ Sesion.archivo s = nombre
    /\ Sesion.consultas s = [].
Proof.
  do 3 eexists. split; [reflexivity |].
  assert (Hs : forall id (x : Sesion.t) w0,
            SESIONES (con_sesiones (insert id x) w0) !! id = Some x).
  { intros. simpl. apply lookup_insert_eq. }
  split; [apply Hs |]. split; [| done].
  apply ver_sesion_existente, Hs.
Qed.

(** C9. On a session that exists, [registrar_consulta] adds one entry
    with the passed category, question and answer at the end of that
    session's history and changes nothing else in it nor in any other
    session; so a run of calls adds their entries in call order, and the
    history grows by the number of calls. *)
Theorem C9_registrar_existente (utcnow_isoformat : nat -> str) (w : mundo)
    (session_id : str) (s : Sesion.t) (tipo : str) (pregunta : option str)
    (resultado : str) (qs : list (str * option str * str)) :
  SESIONES w !! session_id = Some s ->
  (exists w' s' c,
     registrar_consulta utcnow_isoformat session_id tipo pregunta resultado w
       = (inr (), w')
     /\ SESIONES w' !! session_id = Some s'
     /\ solo_historial s s' [c]
     /\ campos c = (tipo, pregunta, resultado)
     /\ otras_intactas session_id w w')
  /\ (exists w' s' cs,
       registrar_todas utcnow_isoformat session_id qs w = (inr (), w')
       /\ SESIONES w' !! session_id = Some s'
       /\ solo_historial s s' cs
       /\ campos <$> cs = qs
       /\ length (Sesion.consultas s')
          = (length (Sesion.consultas s) + length qs)%nat
       /\ otras_intactas session_id w w').
Proof.
  intros Hs. split.
  - destruct (registrar_consulta_existente utcnow_isoformat w session_id s
                tipo pregunta resultado Hs) as (c & Hr & Hc).
    do 3 eexists. split; [exact Hr |]. split; [apply lookup_insert_eq |].
    split; [done |]. split; [done |].
    intros otra Hne. simpl. by apply lookup_insert_ne.
  - destruct (registrar_todas_existente utcnow_isoformat qs w session_id s Hs)
      as (w' & s' & cs & Hrun & Hs' & Hsolo & Hcs & Hotras).
    exists w', s', cs. repeat split; try done; try apply Hsolo.
    destruct Hsolo as (_ & _ & _ & ->).
    by rewrite length_app, <- Hcs, length_fmap.
Qed.

Lemma C9_registrar_existente_witness :
  exists w' s' cs,
    registrar_todas reloj_ej (u8 "s1")
      [(u8 "ratio", None, u8 "R1");
       (u8 "otro", Some (u8 "¿Hay costas?"), u8 "R2");
       (u8 "fallo", None, u8 "R3")] mundo_ej = (inr (), w')
    /\ SESIONES w' !! u8 "s1" = Some s'
    /\ solo_historial sesion_ej s' cs
    /\ campos <$> cs
       = [(u8 "ratio", None, u8 "R1");
          (u8 "otro", Some (u8 "¿Hay costas?"), u8 "R2");
          (u8 "fallo", None, u8 "R3")]
    /\ length (Sesion.consultas s') = (1 + 3)%nat
    /\ otras_intactas (u8 "s1") mundo_ej w'.
Proof.
  apply (C9_registrar_existente reloj_ej mundo_ej (u8 "s1") sesion_ej
           (u8 "ratio") None (u8 "R1")).
  by vm_compute.
Defined.

(** ** The gateway and the handlers *)

Section Pasarela.

Variable chat_completions_create : nat -> peticion -> respuesta_modelo.

Lemma leer_pdf_casos (f : UploadFile) (w : mundo) :
  (exists causa,
     leer_pdf f w
     = (inl (HTTPException 400 (u8 "No se pudo leer el PDF: " ++ causa)),
        anotar (EvPdf (filename f)) w))
  \/ (exists texto, leer_pdf f w = (inr texto, anotar (EvPdf (filename f)) w)).
Proof.
  unfold leer_pdf. destruct (file f) as [e | pages]; [left; by exists e |].
  destruct (extraer_paginas pages []) as [e | texto];
    [left; by exists e | right; by exists texto].
Qed.

Lemma llamar_modelo_casos (prompt : str) (w : mundo) :
  (exists causa,
     llamar_modelo chat_completions_create prompt w
     = (inl (HTTPException 500 (u8 "Error al llamar al modelo: " ++ causa)),
        anotar (EvModelo (peticion_de prompt)) w))
  \/ (exists content,
       llamar_modelo chat_completions_create prompt w
       = (inr content, anotar (EvModelo (peticion_de prompt)) w)).
Proof.
  unfold llamar_modelo.
  destruct (chat_completions_create _ _) as [e | [| content resto]];
    [left; by eexists | left; by eexists | right; by eexists].
Qed.

Lemma bucle_lote_error (tipo : str) (pregunta : option str)
    (archivos : list UploadFile) :
  forall (rs : list resultado_lote) (w w' : mundo) (e : excepcion),
    bucle_lote chat_completions_create tipo pregunta archivos rs w
      = (inl e, w') ->
    error_de_proceso e /\ SESIONES w' = SESIONES w.
Proof.
  induction archivos as [|a resto IH]; intros rs w w' e; simpl.
  - discriminate.
  - unfold bind at 1.
    destruct (leer_pdf_casos a w) as [(causa & ->) | (texto & ->)].
    + intros [= <- <-]. split; [left; by eexists | done].
    + unfold bind at 1.
      destruct (llamar_modelo_casos
                  (construir_prompt tipo (slice_to MAX_CHARS_SENTENCIA texto)
                     pregunta) (anotar (EvPdf (filename a)) w))
        as [(causa & ->) | (content & ->)].
      * intros [= <- <-]. split; [right; by eexists | done].
      * intros H. apply IH in H as [He ->]. done.
Qed.

Lemma cap_no_es_error_de_proceso :
  ~ error_de_proceso (HTTPException 400 DETALLE_LOTE).
Proof.
  intros [[causa H] | [causa H]]; vm_compute in H; discriminate H.
Qed.

End Pasarela.

(** C7, as stated, fails: the error the caller sees carries the
    provider's own message, so two provider failures give two different
    errors. *)
Lemma C7_counterexample :
  fst (llamar_modelo
         (modelo_caido (u8 "Incorrect API key provided: sk-abc123"))
         (u8 "p") mundo_vacio)
    = inl (HTTPException 500
             (u8 "Error al llamar al modelo: Incorrect API key provided: sk-abc123"))
  /\ fst (llamar_modelo
            (modelo_caido (u8 "Incorrect API key provided: sk-abc123"))
            (u8 "p") mundo_vacio)
     <> fst (llamar_modelo (modelo_caido (u8 "Connection error."))
               (u8 "p") mundo_vacio).
Proof. split; [by vm_compute | vm_compute; discriminate]. Qed.

(** C7, amended. Every failure of the provider call, an exception with
    message [causa] or a response without choices, is raised again as
    [HTTPException] with status 500 whose detail is the fixed text
    "Error al llamar al modelo: " followed by the message of the failure;
    [llamar_modelo] raises no error of any other form. *)
Theorem C7_fallo_del_proveedor
    (chat_completions_create : nat -> peticion -> respuesta_modelo)
    (prompt : str) (w : mundo) :
  (forall causa,
     chat_completions_create (length (traza w)) (peticion_de prompt)
       = CreateRaises causa ->
     fst (llamar_modelo chat_completions_create prompt w)
       = inl (HTTPException 500 (u8 "Error al llamar al modelo: " ++ causa)))
  /\ (chat_completions_create (length (traza w)) (peticion_de prompt)
       = CreateReturns [] ->
      fst (llamar_modelo chat_completions_create prompt w)
        = inl (HTTPException 500
                 (u8 "Error al llamar al modelo: list index out of range")))
  /\ (forall e,
       fst (llamar_modelo chat_completions_create prompt w) = inl e ->
       exists causa,
         e = HTTPException 500 (u8 "Error al llamar al modelo: " ++ causa)).
Proof.
  repeat split.
  - intros causa H. unfold llamar_modelo. by rewrite H.
  - intros H. unfold llamar_modelo. by rewrite H.
  - intros e.
    destruct (llamar_modelo_casos chat_completions_create prompt w)
      as [(causa & ->) | (content & ->)]; simpl; [| discriminate].
    intros [= <-]. by exists causa.
Qed.

Lemma C7_fallo_del_proveedor_witness :
  fst (llamar_modelo (modelo_caido (u8 "Connection error.")) (u8 "p")
         mundo_vacio)
    = inl (HTTPException 500
             (u8 "Error al llamar al modelo: " ++ u8 "Connection error.")).
Proof.
  apply (C7_fallo_del_proveedor (modelo_caido (u8 "Connection error."))
           (u8 "p") mundo_vacio).
  reflexivity.
Defined.

Example analizar_lote_dos :
  fst (analizar_lote modelo_ej (u8 "fallo") [pdf_ej; pdf_ej] None mundo_vacio)
  = inr {| lote_tipo_analisis := u8 "fallo";
           numero_sentencias := 2;
           resultados :=
             [ {| lote_archivo := u8 "a.pdf";
                  lote_resultado := u8 "Respuesta del modelo." |};
               {| lote_archivo := u8 "a.pdf";
                  lote_resultado := u8 "Respuesta del modelo." |} ] |}.
Proof. by vm_compute. Qed.

Example analizar_lote_roto :
  analizar_lote modelo_ej (u8 "fallo") [pdf_ej; pdf_roto; pdf_ej] None
    mundo_vacio
  = (inl (HTTPException 400
            (u8 "No se pudo leer el PDF: EOF marker not found")),
     {| SESIONES := ∅;
        traza :=
          [ EvPdf (u8 "a.pdf");
            EvModelo
              (peticion_de
                 (construir_prompt (u8 "fallo") (u8 "STS 123/2020") None));
            EvPdf (u8 "b.pdf") ] |}).
Proof. by vm_compute. Qed.

(** C6. A batch of more than 10 files ends in [HTTPException] 400 with
    the world untouched: no PDF was read, no model call made, nothing
    answered. A batch of at most 10 files goes on to the loop over the
    files and never ends in that error. *)
Theorem C6_tope_del_lote
    (chat_completions_create : nat -> peticion -> respuesta_modelo)
    (tipo : str) (archivos : list UploadFile) (pregunta : option str)
    (w : mundo) :
  (10 < Z.of_nat (length archivos) ->
     analizar_lote chat_completions_create tipo archivos pregunta w
       = (inl (HTTPException 400 (u8 "Máximo 10 archivos por lote.")), w))
  /\ (Z.of_nat (length archivos) <= 10 ->
      analizar_lote chat_completions_create tipo archivos pregunta w
        = bind (bucle_lote chat_completions_create tipo pregunta archivos [])
            (fun rs =>
               ret {| lote_tipo_analisis := tipo;
                      numero_sentencias := Z.of_nat (length archivos);
                      resultados := rs |}) w
      /\ fst (analizar_lote chat_completions_create tipo archivos pregunta w)
         <> inl (HTTPException 400 (u8 "Máximo 10 archivos por lote."))).
Proof.
  unfold analizar_lote, MAX_FILES_LOTE. split; intros Hn.
  - destruct (Z.gtb_spec (Z.of_nat (length archivos)) 10); [done | lia].
  - destruct (Z.gtb_spec (Z.of_nat (length archivos)) 10); [lia |].
    split; [done |]. unfold bind.
    destruct (bucle_lote _ _ _ _ _ _) as [[e | rs] w'] eqn:Hb; [| done].
    simpl. intros [= ->].
    apply bucle_lote_error in Hb as [He _].
    by apply cap_no_es_error_de_proceso in He.
Qed.

Lemma C6_tope_del_lote_witness :
  analizar_lote modelo_ej (u8 "fallo") (replicate 11 pdf_ej) None mundo_ej
    = (inl (HTTPException 400 (u8 "Máximo 10 archivos por lote.")), mundo_ej)
  /\ fst (analizar_lote modelo_ej (u8 "fallo") (replicate 10 pdf_ej) None
            mundo_ej)
     <> inl (HTTPException 400 (u8 "Máximo 10 archivos por lote.")).
Proof.
  split.
  - apply (C6_tope_del_lote modelo_ej (u8 "fallo") (replicate 11 pdf_ej)).
    by vm_compute.
  - apply (C6_tope_del_lote modelo_ej (u8 "fallo") (replicate 10 pdf_ej)).
    by vm_compute.
Defined.

Section Manejadores.

Variable str_uuid4 : nat -> str.
Variable utcnow_isoformat : nat -> str.
Variable chat_completions_create : nat -> peticion -> respuesta_modelo.
Variable template_response : nat -> str -> contexto -> respuesta_plantilla.

(** What [crear_sesion] followed by [registrar_consulta] on the new
    identifier leaves in the store. *)
Lemma crear_y_registrar (texto nombre tipo : str) (pregunta : option str)
    (resultado : str) (w : mundo) :
  exists session_id w1 w2 s c,
    crear_sesion str_uuid4 utcnow_isoformat texto nombre w
      = (inr session_id, w1)
    /\ registrar_consulta utcnow_isoformat session_id tipo pregunta
         resultado w1 = (inr (), w2)
    /\ SESIONES w2 = <[session_id := s]> (SESIONES w)
    /\ Sesion.archivo s = nombre
    /\ Sesion.texto_sentencia s = texto
    /\ Sesion.consultas s = [c]
    /\ campos c = (tipo, pregunta, resultado).
Proof.
  do 5 eexists. split; [reflexivity |].
  unfold registrar_consulta. simpl. rewrite lookup_insert_eq.
  split; [reflexivity |]. simpl. rewrite insert_insert_eq. done.
Qed.

Lemma analizar_solo_con_respuesta (tipo : str) (archivo : UploadFile)
    (pregunta : option str) (w : mundo) :
  sesion_solo_con_respuesta_html chat_completions_create tipo pregunta
    archivo w
    (analizar str_uuid4 utcnow_isoformat chat_completions_create
       template_response tipo archivo pregunta w).
Proof.
  unfold analizar, sesion_solo_con_respuesta_html.
  destruct (leer_pdf_casos archivo w) as [(causa & Hl) | (texto & Hl)].
  { rewrite (bind_error _ _ _ _ _ Hl). left. split; [done |].
    left. by eexists. }
  erewrite bind_ok by exact Hl.
  destruct (llamar_modelo_casos chat_completions_create
              (construir_prompt tipo (slice_to MAX_CHARS_SENTENCIA texto)
                 pregunta) (anotar (EvPdf (filename archivo)) w))
    as [(causa & Hm) | (content & Hm)].
  { rewrite (bind_error _ _ _ _ _ Hm). left. split; [done |].
    right. by eexists. }
  erewrite bind_ok by exact Hm.
  destruct (crear_y_registrar (slice_to MAX_CHARS_SENTENCIA texto)
              (filename archivo) tipo pregunta content
              (anotar (EvModelo (peticion_de
                 (construir_prompt tipo (slice_to MAX_CHARS_SENTENCIA texto)
                    pregunta))) (anotar (EvPdf (filename archivo)) w)))
    as (id & w1 & w2 & s & c & Hc & Hr & Hw & Ha & _ & Hh & Hf).
  erewrite bind_ok by exact Hc. erewrite bind_ok by exact Hr.
  unfold bind, TemplateResponse.
  destruct (template_response _ _ _) as [e | body].
  - right. exists texto, (anotar (EvPdf (filename archivo)) w), content.
    eexists. exists id, s, c, e. split; [exact Hl |]. split; [exact Hm |].
    done.
  - by exists s, c.
Qed.

Lemma analizar_json_solo_con_respuesta (tipo : str) (archivo : UploadFile)
    (pregunta : option str) (w : mundo) :
  sesion_solo_con_respuesta json_session_id json_resultado tipo pregunta
    archivo w
    (analizar_json str_uuid4 utcnow_isoformat chat_completions_create tipo
       archivo pregunta w).
Proof.
  unfold analizar_json. unfold bind at 1.
  destruct (leer_pdf_casos archivo w) as [(causa & ->) | (texto & ->)].
  { simpl. split; [done | left; by eexists]. }
  unfold bind at 1.
  destruct (llamar_modelo_casos chat_completions_create
              (construir_prompt tipo (slice_to MAX_CHARS_SENTENCIA texto)
                 pregunta) (anotar (EvPdf (filename archivo)) w))
    as [(causa & ->) | (content & ->)].
  { simpl. split; [done | right; by eexists]. }
  destruct (crear_y_registrar (slice_to MAX_CHARS_SENTENCIA texto)
              (filename archivo) tipo pregunta content
              (anotar (EvModelo (peticion_de
                 (construir_prompt tipo (slice_to MAX_CHARS_SENTENCIA texto)
                    pregunta))) (anotar (EvPdf (filename archivo)) w)))
    as (id & w1 & w2 & s & c & Hc & Hr & Hw & Ha & _ & Hh & Hf).
  unfold bind. rewrite Hc, Hr. simpl. by exists s, c.
Qed.

(** The count returned by [analizar_sesion] is read after the new entry
    was added. *)
Lemma analizar_sesion_cuenta (w : mundo) (session_id : str) (s : Sesion.t)
    (tipo : str) (pregunta : option str) (content : str) (resto : list str) :
  SESIONES w !! session_id = Some s ->
  chat_completions_create (length (traza w))
    (peticion_de (construir_prompt tipo (Sesion.texto_sentencia s) pregunta))
    = CreateReturns (content :: resto) ->
  exists r w',
    analizar_sesion utcnow_isoformat chat_completions_create session_id tipo
      pregunta w = (inr r, w')
    /\ rs_resultado r = content
    /\ consultas_previas r = Z.of_nat (length (Sesion.consultas s)) + 1.
Proof.
  intros Hs Hm.
  destruct (registrar_consulta_existente utcnow_isoformat
              (anotar (EvModelo (peticion_de
                 (construir_prompt tipo (Sesion.texto_sentencia s) pregunta)))
                 w) session_id s tipo pregunta content Hs) as (c & Hr & _).
  set (w' := con_sesiones (insert session_id (con_consulta c s)) _) in Hr.
  assert (Hs' : SESIONES w' !! session_id = Some (con_consulta c s))
    by apply lookup_insert_eq.
  unfold analizar_sesion.
  erewrite bind_ok by (eapply en_sesiones_existente; eassumption).
  change (negb true) with false. cbv iota.
  erewrite bind_ok by (eapply sesion_de_existente; eassumption).
  erewrite bind_ok by (unfold llamar_modelo; by rewrite Hm).
  erewrite bind_ok by exact Hr.
  erewrite bind_ok by (eapply sesion_de_existente; eassumption).
  erewrite bind_ok by (eapply sesion_de_existente; eassumption).
  do 2 eexists. split; [reflexivity |]. simpl. split; [done |].
  rewrite length_app. simpl. lia.
Qed.

End Manejadores.

(** C10. In [analizar] and [analizar_json] the PDF is read and the model
    is called before a session is made: when either fails the request
    ends in that error and the store is the one it found; a session is
    added only once the answer was obtained, and it holds that one
    query. In [analizar] the page is made after that, so a failure of
    the template leaves the session of the answered query stored. *)
Theorem C10_sesion_tras_respuesta (str_uuid4 utcnow_isoformat : nat -> str)
    (chat_completions_create : nat -> peticion -> respuesta_modelo)
    (template_response : nat -> str -> contexto -> respuesta_plantilla)
    (tipo : str) (archivo : UploadFile) (pregunta : option str) (w : mundo) :
  sesion_solo_con_respuesta_html chat_completions_create tipo pregunta
    archivo w
    (analizar str_uuid4 utcnow_isoformat chat_completions_create
       template_response tipo archivo pregunta w)
  /\ sesion_solo_con_respuesta json_session_id json_resultado tipo pregunta
       archivo w
       (analizar_json str_uuid4 utcnow_isoformat chat_completions_create tipo
          archivo pregunta w)
  /\ (forall e w1,
       leer_pdf archivo w = (inl e, w1) ->
       analizar str_uuid4 utcnow_isoformat chat_completions_create
         template_response tipo archivo pregunta w = (inl e, w1)
       /\ analizar_json str_uuid4 utcnow_isoformat chat_completions_create
            tipo archivo pregunta w = (inl e, w1)
       /\ SESIONES w1 = SESIONES w)
  /\ (forall texto w1 e w2,
       leer_pdf archivo w = (inr texto, w1) ->
       llamar_modelo chat_completions_create
         (construir_prompt tipo (slice_to MAX_CHARS_SENTENCIA texto) pregunta)
         w1 = (inl e, w2) ->
       analizar str_uuid4 utcnow_isoformat chat_completions_create
         template_response tipo archivo pregunta w = (inl e, w2)
       /\ analizar_json str_uuid4 utcnow_isoformat chat_completions_create
            tipo archivo pregunta w = (inl e, w2)
       /\ SESIONES w2 = SESIONES w).
Proof.
  split; [apply analizar_solo_con_respuesta |].
  split; [apply analizar_json_solo_con_respuesta |]. split.
  - intros e w1 Hl.
    split; [unfold analizar; by apply bind_error |].
    split; [unfold analizar_json; by apply bind_error |].
    destruct (leer_pdf_casos archivo w) as [(causa & Hc) | (texto & Hc)];
      rewrite Hc in Hl; [by injection Hl as <- <- | discriminate Hl].
  - intros texto w1 e w2 Hl Hm.
    split; [unfold analizar; erewrite bind_ok by exact Hl;
            by apply bind_error |].
    split; [unfold analizar_json; erewrite bind_ok by exact Hl;
            by apply bind_error |].
    destruct (leer_pdf_casos archivo w) as [(causa & Hc) | (texto' & Hc)];
      rewrite Hc in Hl; [discriminate Hl |]. injection Hl as <- <-.
    destruct (llamar_modelo_casos chat_completions_create
                (construir_prompt tipo (slice_to MAX_CHARS_SENTENCIA texto')
                   pregunta) (anotar (EvPdf (filename archivo)) w))
      as [(causa & Hd) | (content & Hd)];
      rewrite Hd in Hm; [by injection Hm as <- <- | discriminate Hm].
Qed.

Lemma C10_sesion_tras_respuesta_witness :
  (analizar uuid_ej reloj_ej modelo_ej plantilla_ej (u8 "fallo") pdf_roto
     None mundo_ej
     = (inl (HTTPException 400
               (u8 "No se pudo leer el PDF: EOF marker not found")),
        anotar (EvPdf (u8 "b.pdf")) mundo_ej)
   /\ analizar_json uuid_ej reloj_ej modelo_ej (u8 "fallo") pdf_roto None
        mundo_ej
      = (inl (HTTPException 400
                (u8 "No se pudo leer el PDF: EOF marker not found")),
         anotar (EvPdf (u8 "b.pdf")) mundo_ej)
   /\ SESIONES (anotar (EvPdf (u8 "b.pdf")) mundo_ej) = SESIONES mundo_ej)
  /\ (analizar uuid_ej reloj_ej (modelo_caido (u8 "Connection error."))
        plantilla_ej (u8 "fallo") pdf_ej None mundo_ej
      = (inl (HTTPException 500
                (u8 "Error al llamar al modelo: Connection error.")),
         anotar
           (EvModelo
              (peticion_de
                 (construir_prompt (u8 "fallo") (u8 "STS 123/2020") None)))
           (anotar (EvPdf (u8 "a.pdf")) mundo_ej))
      /\ analizar_json uuid_ej reloj_ej (modelo_caido (u8 "Connection error."))
           (u8 "fallo") pdf_ej None mundo_ej
         = (inl (HTTPException 500
                   (u8 "Error al llamar al modelo: Connection error.")),
            anotar
              (EvModelo
                 (peticion_de
                    (construir_prompt (u8 "fallo") (u8 "STS 123/2020") None)))
              (anotar (EvPdf (u8 "a.pdf")) mundo_ej))
      /\ SESIONES
           (anotar
              (EvModelo
                 (peticion_de
                    (construir_prompt (u8 "fallo") (u8 "STS 123/2020") None)))
              (anotar (EvPdf (u8 "a.pdf")) mundo_ej))
         = SESIONES mundo_ej).
Proof.
  split.
  - assert (Hl : leer_pdf pdf_roto mundo_ej
                 = (inl (HTTPException 400
                           (u8 "No se pudo leer el PDF: EOF marker not found")),
                    anotar (EvPdf (u8 "b.pdf")) mundo_ej))
      by (vm_compute; reflexivity).
    exact (proj1 (proj2 (proj2
             (C10_sesion_tras_respuesta uuid_ej reloj_ej modelo_ej
                plantilla_ej (u8 "fallo") pdf_roto None mundo_ej))) _ _ Hl).
  - assert (Hl : leer_pdf pdf_ej mundo_ej
                 = (inr (u8 "STS 123/2020"),
                    anotar (EvPdf (u8 "a.pdf")) mundo_ej))
      by (vm_compute; reflexivity).
    assert (Hm :
      llamar_modelo (modelo_caido (u8 "Connection error."))
        (construir_prompt (u8 "fallo")
           (slice_to MAX_CHARS_SENTENCIA (u8 "STS 123/2020")) None)
        (anotar (EvPdf (u8 "a.pdf")) mundo_ej)
      = (inl (HTTPException 500
                (u8 "Error al llamar al modelo: Connection error.")),
         anotar
           (EvModelo
              (peticion_de
                 (construir_prompt (u8 "fallo") (u8 "STS 123/2020") None)))
           (anotar (EvPdf (u8 "a.pdf")) mundo_ej)))
      by (vm_compute; reflexivity).
    exact (proj2 (proj2 (proj2
             (C10_sesion_tras_respuesta uuid_ej reloj_ej
                (modelo_caido (u8 "Connection error.")) plantilla_ej
                (u8 "fallo") pdf_ej None mundo_ej))) _ _ _ _ Hl Hm).
Defined.

(** C2. At a session holding one earlier query, a continuation request
    answers with [consultas_previas] = 2: the count is the length of the
    history after the current query was added, one more than the number
    of queries made before it. *)
Theorem C2_consultas_previas_tras_registrar :
  exists r w' s',
    SESIONES mundo_ej !! u8 "s1" = Some sesion_ej
    /\ length (Sesion.consultas sesion_ej) = 1%nat
    /\ analizar_sesion reloj_ej modelo_ej (u8 "s1") (u8 "ratio") None mundo_ej
       = (inr r, w')
    /\ consultas_previas r = 2
    /\ SESIONES w' !! u8 "s1" = Some s'
    /\ length (Sesion.consultas s') = 2%nat.
Proof.
  destruct (analizar_sesion_cuenta reloj_ej modelo_ej mundo_ej (u8 "s1")
              sesion_ej (u8 "ratio") None (u8 "Respuesta del modelo.") [])
    as (r & w' & Hrun & _ & Hn).
  - by vm_compute.
  - reflexivity.
  - exists r, w'. eexists. split; [by vm_compute |]. split; [done |].
    split; [exact Hrun |]. split; [exact Hn |].
    revert Hrun. vm_compute. intros [= <- <-]. split; reflexivity.
Qed.

(** * Further properties of the prompt builder *)

(** Takes the branch of a test [tipo = literal] that the hypothesis [H]
    leaves open. *)
Ltac descarta H :=
  match goal with
  | |- context [decide (?a = ?b)] =>
    let E := fresh "E" in
    destruct (decide (a = b)) as [E | _]; [destruct (H E) |]
  end.

(** Settles a test between two literals by evaluating both. *)
Ltac rama_literal :=
  match goal with
  | |- context [decide (?a = ?b)] =>
    let E := fresh "E" in
    destruct (decide (a = b)) as [E | E];
    [ try (exfalso; vm_compute in E; discriminate E)
    | try (exfalso; apply E; vm_compute; reflexivity); clear E ]
  end.

Section MasPrompt.

(** X1. Every category other than ["otro"] ignores the question. *)
Theorem X1_pregunta_ignorada (tipo texto : str) (p1 p2 : option str) :
  tipo <> u8 "otro" ->
  construir_prompt tipo texto p1 = construir_prompt tipo texto p2.
Proof.
  intros Hno. unfold construir_prompt.
  repeat (case_decide; [reflexivity |]).
  by descarta Hno.
Qed.

(** X2. A category string that is none of the six known ones gets the
    general template, the same prompt ["general"] gets. *)
Theorem X2_tipo_desconocido (tipo texto : str) (pregunta : option str) :
  tipo ∉ TIPOS_CONOCIDOS ->
  construir_prompt tipo texto pregunta = CABECERA_GENERAL ++ texto ++ NL
  /\ construir_prompt tipo texto pregunta
     = construir_prompt (u8 "general") texto None.
Proof.
  unfold TIPOS_CONOCIDOS. rewrite !not_elem_of_cons.
  intros (H1 & H2 & H3 & H4 & H5 & H6 & _).
  assert (E : construir_prompt tipo texto pregunta
              = CABECERA_GENERAL ++ texto ++ NL).
  { unfold construir_prompt.
    descarta H1. descarta H2. descarta H3. descarta H4. descarta H5.
    descarta H6. reflexivity. }
  split; [exact E |]. rewrite E. unfold construir_prompt.
  do 6 rama_literal. reflexivity.
Qed.

(** X3. With category ["otro"] and a question that has a character
    other than white space, the question goes into the prompt as it was
    given, not stripped, under its heading and before the text. *)
Theorem X3_pregunta_literal (texto q : str) :
  Exists (fun c => isspace c = false) q ->
  construir_prompt (u8 "otro") texto (Some q)
    = CABECERA_OTRO ++ q ++ SEPARADOR_SENTENCIA ++ texto ++ NL.
Proof.
  intros Hq. rewrite construir_prompt_otro.
  destruct (sin_pregunta (Some q)) eqn:Hs; [| reflexivity].
  apply sin_pregunta_spec in Hs. simpl in Hs. exfalso.
  apply Exists_exists in Hq as (c & Hin & Hc).
  rewrite Forall_forall in Hs. specialize (Hs c Hin). congruence.
Qed.

(** X4. Outside the no-question case the prompt determines the text:
    two texts give the same prompt only when they are the same text. *)
Theorem X4_prompt_determina_texto (tipo t1 t2 : str)
    (pregunta : option str) :
  ~ (tipo = u8 "otro" /\ en_blanco pregunta) ->
  construir_prompt tipo t1 pregunta = construir_prompt tipo t2 pregunta ->
  t1 = t2.
Proof.
  intros Hno. rewrite <- sin_pregunta_spec in Hno.
  destruct (construir_prompt_forma tipo pregunta Hno) as [cab Hcab].
  rewrite !Hcab. intros H. by apply app_inv_head, app_inv_tail in H.
Qed.

End MasPrompt.

Lemma X1_pregunta_ignorada_witness :
  construir_prompt (u8 "fallo") (u8 "STS 123/2020") None
  = construir_prompt (u8 "fallo") (u8 "STS 123/2020")
      (Some (u8 "¿Hay costas?")).
Proof.
  assert (H : u8 "fallo" <> u8 "otro") by (vm_compute; discriminate).
  exact (X1_pregunta_ignorada (u8 "fallo") (u8 "STS 123/2020") None
           (Some (u8 "¿Hay costas?")) H).
Defined.

Lemma X2_tipo_desconocido_witness :
  construir_prompt (u8 "unknown_xyz") (u8 "STS 123/2020") None
  = CABECERA_GENERAL ++ u8 "STS 123/2020" ++ NL.
Proof.
  assert (H : u8 "unknown_xyz" ∉ TIPOS_CONOCIDOS).
  { apply (bool_decide_unpack _). vm_compute. exact I. }
  exact (proj1 (X2_tipo_desconocido (u8 "unknown_xyz") (u8 "STS 123/2020")
                  None H)).
Defined.

Lemma X3_pregunta_literal_witness :
  construir_prompt (u8 "otro") (u8 "STS 123/2020") (Some (u8 " ¿Hay costas? "))
  = CABECERA_OTRO ++ u8 " ¿Hay costas? " ++ SEPARADOR_SENTENCIA
      ++ u8 "STS 123/2020" ++ NL.
Proof.
  assert (H : Exists (fun c => isspace c = false) (u8 " ¿Hay costas? ")).
  { vm_compute. apply Exists_cons_tl, Exists_cons_hd. reflexivity. }
  exact (X3_pregunta_literal (u8 "STS 123/2020") (u8 " ¿Hay costas? ") H).
Defined.

Lemma X4_prompt_determina_texto_witness :
  u8 "STS " ++ u8 "123/2020" = u8 "STS 123/2020".
Proof.
  assert (H : ~ (u8 "ratio" = u8 "otro" /\ en_blanco None)).
  { intros [H _]. vm_compute in H. discriminate H. }
  assert (E : construir_prompt (u8 "ratio") (u8 "STS " ++ u8 "123/2020") None
              = construir_prompt (u8 "ratio") (u8 "STS 123/2020") None).
  { vm_compute. reflexivity. }
  exact (X4_prompt_determina_texto (u8 "ratio") (u8 "STS " ++ u8 "123/2020")
           (u8 "STS 123/2020") None H E).
Defined.

Section Plantillas.

Lemma construir_prompt_sujetos (texto : str) (pregunta : option str) :
  construir_prompt (u8 "sujetos") texto pregunta
  = CABECERA_SUJETOS ++ texto ++ NL.
Proof. unfold construir_prompt. do 1 rama_literal. reflexivity. Qed.

Lemma construir_prompt_ratio (texto : str) (pregunta : option str) :
  construir_prompt (u8 "ratio") texto pregunta
  = CABECERA_RATIO ++ texto ++ NL.
Proof. unfold construir_prompt. do 2 rama_literal. reflexivity. Qed.

Lemma construir_prompt_normativa (texto : str) (pregunta : option str) :
  construir_prompt (u8 "normativa") texto pregunta
  = CABECERA_NORMATIVA ++ texto ++ NL.
Proof. unfold construir_prompt. do 3 rama_literal. reflexivity. Qed.

Lemma construir_prompt_fallo (texto : str) (pregunta : option str) :
  construir_prompt (u8 "fallo") texto pregunta
  = CABECERA_FALLO ++ texto ++ NL.
Proof. unfold construir_prompt. do 4 rama_literal. reflexivity. Qed.

Lemma construir_prompt_consecuencia (texto : str) (pregunta : option str) :
  construir_prompt (u8 "consecuencia") texto pregunta
  = CABECERA_CONSECUENCIA ++ texto ++ NL.
Proof. unfold construir_prompt. do 5 rama_literal. reflexivity. Qed.

End Plantillas.

(** Closes a case of two categories: the same literal twice against the
    hypothesis that they differ, or two prompts that differ inside their
    headings. *)
Ltac caso_distinto Hne Heq :=
  first
    [ exfalso; vm_compute in Hne; apply Hne; reflexivity
    | exfalso; vm_compute in Heq; discriminate Heq ].

(** X24. Two different categories never give the same prompt when one of
    them is a known category, whatever the texts and the questions: the
    headings already differ. *)
Theorem X24_tipos_distintos (t1 t2 x1 x2 : str) (p1 p2 : option str) :
  t1 ∈ TIPOS_CONOCIDOS ->
  t1 <> t2 ->
  construir_prompt t1 x1 p1 <> construir_prompt t2 x2 p2.
Proof.
  unfold TIPOS_CONOCIDOS. rewrite !elem_of_cons.
  intros Hin Hne Heq.
  assert (Hder :
    (t2 = u8 "sujetos" /\ construir_prompt t2 x2 p2
                          = CABECERA_SUJETOS ++ x2 ++ NL)
    \/ (t2 = u8 "ratio" /\ construir_prompt t2 x2 p2
                           = CABECERA_RATIO ++ x2 ++ NL)
    \/ (t2 = u8 "normativa" /\ construir_prompt t2 x2 p2
                               = CABECERA_NORMATIVA ++ x2 ++ NL)
    \/ (t2 = u8 "fallo" /\ construir_prompt t2 x2 p2
                           = CABECERA_FALLO ++ x2 ++ NL)
    \/ (t2 = u8 "consecuencia" /\ construir_prompt t2 x2 p2
                                  = CABECERA_CONSECUENCIA ++ x2 ++ NL)
    \/ (t2 = u8 "otro" /\ construir_prompt t2 x2 p2 = PROMPT_SIN_PREGUNTA)
    \/ (t2 = u8 "otro"
        /\ construir_prompt t2 x2 p2
           = CABECERA_OTRO ++ default [] p2 ++ SEPARADOR_SENTENCIA
               ++ x2 ++ NL)
    \/ ((t2 ∉ TIPOS_CONOCIDOS)
        /\ construir_prompt t2 x2 p2 = CABECERA_GENERAL ++ x2 ++ NL)).
  { unfold construir_prompt.
    case_decide; [by left |]. right.
    case_decide; [by left |]. right.
    case_decide; [by left |]. right.
    case_decide; [by left |]. right.
    case_decide; [by left |]. right.
    case_decide.
    - destruct (sin_pregunta p2); [by left | right; by left].
    - do 2 right. split; [| reflexivity].
      unfold TIPOS_CONOCIDOS. rewrite !not_elem_of_cons.
      repeat split; try assumption. apply not_elem_of_nil. }
  destruct Hin as [-> | [-> | [-> | [-> | [-> | [-> | Hnil]]]]]];
    [ rewrite construir_prompt_sujetos in Heq
    | rewrite construir_prompt_ratio in Heq
    | rewrite construir_prompt_normativa in Heq
    | rewrite construir_prompt_fallo in Heq
    | rewrite construir_prompt_consecuencia in Heq
    | rewrite construir_prompt_otro in Heq; destruct (sin_pregunta p1)
    | by apply elem_of_nil in Hnil ];
    (destruct Hder
       as [[-> Hd] | [[-> Hd] | [[-> Hd] | [[-> Hd] | [[-> Hd]
           | [[-> Hd] | [[-> Hd] | [Hno Hd]]]]]]]];
     rewrite Hd in Heq; clear Hd;
     [ caso_distinto Hne Heq | caso_distinto Hne Heq | caso_distinto Hne Heq
     | caso_distinto Hne Heq | caso_distinto Hne Heq | caso_distinto Hne Heq
     | caso_distinto Hne Heq
     | exfalso; vm_compute in Heq; discriminate Heq ]).
Qed.

Lemma X24_tipos_distintos_witness :
  construir_prompt (u8 "ratio") (u8 "STS 123/2020") None
  <> construir_prompt (u8 "fallo") (u8 "STS 123/2020") None.
Proof.
  assert (Hin : u8 "ratio" ∈ TIPOS_CONOCIDOS).
  { apply (bool_decide_unpack _). vm_compute. exact I. }
  assert (Hne : u8 "ratio" <> u8 "fallo") by (vm_compute; discriminate).
  exact (X24_tipos_distintos (u8 "ratio") (u8 "fallo") (u8 "STS 123/2020")
           (u8 "STS 123/2020") None None Hin Hne).
Defined.

(** * Further properties of the PDF reader *)

Section MasPdf.

Lemma or_vacio_default (t : option str) : or_vacio t = default [] t.
Proof. by destruct t as [[|c t]|]. Qed.

Lemma extraer_paginas_textos (ts : list (option str)) :
  forall acc : str,
    extraer_paginas (ExtractText <$> ts) acc
    = inr (acc ++ concat (default [] <$> ts)).
Proof.
  induction ts as [|t ts IH]; intros acc; simpl.
  - by rewrite app_nil_r.
  - rewrite IH, or_vacio_default. by rewrite <- app_assoc.
Qed.

Lemma extraer_paginas_falla (ts : list (option str)) (e : str)
    (post : list pagina) :
  forall acc : str,
    extraer_paginas ((ExtractText <$> ts) ++ ExtractRaises e :: post) acc
    = inl e.
Proof. induction ts as [|t ts IH]; intros acc; simpl; [done | apply IH]. Qed.

Lemma leer_pdf_texto (f : UploadFile) (w : mundo) :
  leer_pdf f w
  = (match texto_pdf f with
     | inl e => inl (HTTPException 400 (u8 "No se pudo leer el PDF: " ++ e))
     | inr texto => inr texto
     end, anotar (EvPdf (filename f)) w).
Proof.
  unfold leer_pdf, texto_pdf. destruct (file f) as [e | pages]; [done |].
  by destruct (extraer_paginas pages []).
Qed.

End MasPdf.

(** X5. When no page fails, [leer_pdf] returns the texts of the pages
    joined in page order, a page without text ([None] or empty) adding
    nothing; a document without pages gives the empty text, not an
    error. The store is not touched. *)
Theorem X5_leer_pdf_concatena (f : UploadFile) (ts : list (option str))
    (w : mundo) :
  file f = ReaderPages (ExtractText <$> ts) ->
  leer_pdf f w
  = (inr (concat (default [] <$> ts)), anotar (EvPdf (filename f)) w).
Proof.
  intros Hf. rewrite leer_pdf_texto. unfold texto_pdf.
  by rewrite Hf, extraer_paginas_textos.
Qed.

Lemma X5_leer_pdf_concatena_witness :
  leer_pdf pdf_ej mundo_ej
  = (inr (concat (default [] <$> [Some (u8 "STS 123/2020"); None])),
     anotar (EvPdf (filename pdf_ej)) mundo_ej).
Proof.
  exact (X5_leer_pdf_concatena pdf_ej [Some (u8 "STS 123/2020"); None]
           mundo_ej eq_refl).
Defined.

(** X6. When the reader raises, or the first page that fails comes
    after any number of good pages, [leer_pdf] raises [HTTPException]
    400 whose detail is "No se pudo leer el PDF: " and the message of
    that failure; the text read so far is dropped. *)
Theorem X6_leer_pdf_falla (f : UploadFile) (e : str) (w : mundo) :
  file f = ReaderRaises e
  \/ (exists ts post,
        file f = ReaderPages ((ExtractText <$> ts) ++ ExtractRaises e :: post)) ->
  leer_pdf f w
  = (inl (HTTPException 400 (u8 "No se pudo leer el PDF: " ++ e)),
     anotar (EvPdf (filename f)) w).
Proof.
  intros Hf. rewrite leer_pdf_texto. unfold texto_pdf.
  destruct Hf as [-> | (ts & post & ->)]; [done |].
  by rewrite extraer_paginas_falla.
Qed.

Lemma X6_leer_pdf_falla_witness :
  leer_pdf pdf_roto mundo_ej
  = (inl (HTTPException 400
            (u8 "No se pudo leer el PDF: " ++ u8 "EOF marker not found")),
     anotar (EvPdf (filename pdf_roto)) mundo_ej).
Proof.
  exact (X6_leer_pdf_falla pdf_roto (u8 "EOF marker not found") mundo_ej
           (or_introl eq_refl)).
Defined.

(** * Further properties of the session routes *)

Section MasSesion.

Variable utcnow_isoformat : nat -> str.
Variable chat_completions_create : nat -> peticion -> respuesta_modelo.

Lemma en_sesiones_ausente (w : mundo) (session_id : str) :
  SESIONES w !! session_id = None ->
  en_sesiones session_id w = (inr false, w).
Proof.
  intros Hs. unfold en_sesiones. rewrite Hs.
  rewrite bool_decide_eq_false_2; [done |]. by intros [x Hx].
Qed.

Lemma analizar_sesion_ausente (w : mundo) (session_id tipo : str)
    (pregunta : option str) :
  SESIONES w !! session_id = None ->
  analizar_sesion utcnow_isoformat chat_completions_create session_id tipo
    pregunta w = (inl NO_ENCONTRADA, w).
Proof.
  intros Hs. unfold analizar_sesion.
  erewrite bind_ok by (by apply en_sesiones_ausente). reflexivity.
Qed.

Lemma ver_sesion_eq (w : mundo) (session_id : str) :
  ver_sesion session_id w
  = (match SESIONES w !! session_id with
     | Some s => inr s
     | None => inl NO_ENCONTRADA
     end, w).
Proof.
  destruct (SESIONES w !! session_id) as [s|] eqn:Hs.
  - by apply ver_sesion_existente.
  - unfold ver_sesion.
    erewrite bind_ok by (by apply en_sesiones_ausente). reflexivity.
Qed.

End MasSesion.

(** X7. A continuation request for an identifier that is not in the
    store ends in [HTTPException] 404 and leaves the world as it was: the
    provider is not called. *)
Theorem X7_analizar_sesion_desconocida (utcnow_isoformat : nat -> str)
    (chat_completions_create : nat -> peticion -> respuesta_modelo)
    (session_id tipo : str) (pregunta : option str) (w : mundo) :
  SESIONES w !! session_id = None ->
  analizar_sesion utcnow_isoformat chat_completions_create session_id tipo
    pregunta w
  = (inl (HTTPException 404 (u8 "Sesión no encontrada o caducada.")), w).
Proof.
  intros Hs.
  exact (analizar_sesion_ausente utcnow_isoformat chat_completions_create w
           session_id tipo pregunta Hs).
Qed.

Lemma X7_analizar_sesion_desconocida_witness :
  analizar_sesion reloj_ej modelo_ej (u8 "nonexistent") (u8 "ratio") None
    mundo_ej
  = (inl (HTTPException 404 (u8 "Sesión no encontrada o caducada.")),
     mundo_ej).
Proof.
  assert (H : SESIONES mundo_ej !! u8 "nonexistent" = None)
    by (vm_compute; reflexivity).
  exact (X7_analizar_sesion_desconocida reloj_ej modelo_ej (u8 "nonexistent")
           (u8 "ratio") None mundo_ej H).
Defined.

(** X8. [ver_sesion] only reads: it returns the stored session when the
    identifier is in the store and raises [HTTPException] 404 otherwise,
    never a [KeyError], and the world is the same afterwards. *)
Theorem X8_ver_sesion (session_id : str) (w : mundo) :
  ver_sesion session_id w
  = (match SESIONES w !! session_id with
     | Some s => inr s
     | None =>
       inl (HTTPException 404 (u8 "Sesión no encontrada o caducada."))
     end, w).
Proof. exact (ver_sesion_eq w session_id). Qed.

Section MasContinuacion.

Variable utcnow_isoformat : nat -> str.
Variable chat_completions_create : nat -> peticion -> respuesta_modelo.

Lemma llamar_modelo_eq (prompt : str) (w : mundo) :
  llamar_modelo chat_completions_create prompt w
  = (match chat_completions_create (length (traza w)) (peticion_de prompt)
     with
     | CreateRaises e =>
       inl (HTTPException 500 (u8 "Error al llamar al modelo: " ++ e))
     | CreateReturns [] =>
       inl (HTTPException 500
              (u8 "Error al llamar al modelo: "
               ++ u8 "list index out of range"))
     | CreateReturns (content :: _) => inr content
     end, anotar (EvModelo (peticion_de prompt)) w).
Proof.
  unfold llamar_modelo.
  by destruct (chat_completions_create _ _) as [e | [| content resto]].
Qed.

(** The handler of [/analizar_sesion] once the session is known to be
    there. *)
Lemma analizar_sesion_existente (w : mundo) (session_id : str)
    (s : Sesion.t) (tipo : str) (pregunta : option str) :
  SESIONES w !! session_id = Some s ->
  let prompt := construir_prompt tipo (Sesion.texto_sentencia s) pregunta in
  let w1 := anotar (EvModelo (peticion_de prompt)) w in
  (exists causa,
     llamar_modelo chat_completions_create prompt w
     = (inl (HTTPException 500 (u8 "Error al llamar al modelo: " ++ causa)),
        w1)
     /\ analizar_sesion utcnow_isoformat chat_completions_create session_id
          tipo pregunta w
        = (inl (HTTPException 500
                  (u8 "Error al llamar al modelo: " ++ causa)), w1))
  \/ (exists content resto c,
       chat_completions_create (length (traza w)) (peticion_de prompt)
         = CreateReturns (content :: resto)
       /\ campos c = (tipo, pregunta, content)
       /\ analizar_sesion utcnow_isoformat chat_completions_create session_id
            tipo pregunta w
          = (inr {| rs_session_id := session_id;
                    rs_tipo_analisis := tipo;
                    rs_archivo := Sesion.archivo s;
                    rs_resultado := content;
                    consultas_previas :=
                      Z.of_nat (length (Sesion.consultas s ++ [c])) |},
             con_sesiones (insert session_id (con_consulta c s))
               (anotar EvUtcnow w1))).
Proof.
  intros Hs prompt w1. unfold analizar_sesion.
  erewrite bind_ok by (eapply en_sesiones_existente; eassumption).
  change (negb true) with false. cbv iota.
  erewrite bind_ok by (eapply sesion_de_existente; eassumption).
  fold prompt.
  destruct (llamar_modelo_casos chat_completions_create prompt w)
    as [(causa & Hm) | (content & Hm)].
  - left. exists causa. split; [exact Hm |]. by apply bind_error.
  - right. pose proof (llamar_modelo_eq prompt w) as Heq. rewrite Hm in Heq.
    destruct (chat_completions_create (length (traza w)) (peticion_de prompt))
      as [e | [| content' resto]] eqn:Hc; try discriminate Heq.
    injection Heq as ->.
    destruct (registrar_consulta_existente utcnow_isoformat w1 session_id s
                tipo pregunta content' Hs) as (c & Hr & Hcampos).
    exists content', resto, c. split; [reflexivity |]. split; [exact Hcampos |].
    erewrite bind_ok by exact Hm. erewrite bind_ok by exact Hr.
    assert (Hs' : SESIONES
                    (con_sesiones (insert session_id (con_consulta c s))
                       (anotar EvUtcnow w1)) !! session_id
                  = Some (con_consulta c s)) by apply lookup_insert_eq.
    erewrite bind_ok by (eapply sesion_de_existente; exact Hs').
    erewrite bind_ok by (eapply sesion_de_existente; exact Hs').
    reflexivity.
Qed.

End MasContinuacion.

(** X9. A continuation request on a stored session can only fail with
    the provider: the error is then [HTTPException] 500 with the model
    error detail, never a [KeyError], and the store, the history of the
    session included, is as before. *)
Theorem X9_analizar_sesion_falla (utcnow_isoformat : nat -> str)
    (chat_completions_create : nat -> peticion -> respuesta_modelo)
    (session_id tipo : str) (pregunta : option str) (s : Sesion.t)
    (w w' : mundo) (e : excepcion) :
  SESIONES w !! session_id = Some s ->
  analizar_sesion utcnow_isoformat chat_completions_create session_id tipo
    pregunta w = (inl e, w') ->
  SESIONES w' = SESIONES w
  /\ exists causa,
       e = HTTPException 500 (u8 "Error al llamar al modelo: " ++ causa).
Proof.
  intros Hs Hrun.
  destruct (analizar_sesion_existente utcnow_isoformat chat_completions_create
              w session_id s tipo pregunta Hs)
    as [(causa & _ & Hf) | (content & resto & c & _ & _ & Hok)].
  - rewrite Hf in Hrun. injection Hrun as <- <-. split; [done |].
    by exists causa.
  - rewrite Hok in Hrun. discriminate Hrun.
Qed.

Lemma X9_analizar_sesion_falla_witness :
  SESIONES
    (anotar
       (EvModelo
          (peticion_de
             (construir_prompt (u8 "ratio") (Sesion.texto_sentencia sesion_ej)
                None))) mundo_ej)
  = SESIONES mundo_ej
  /\ exists causa,
       HTTPException 500 (u8 "Error al llamar al modelo: Connection error.")
       = HTTPException 500 (u8 "Error al llamar al modelo: " ++ causa).
Proof.
  assert (Hs : SESIONES mundo_ej !! u8 "s1" = Some sesion_ej)
    by (vm_compute; reflexivity).
  assert (Hrun :
    analizar_sesion reloj_ej (modelo_caido (u8 "Connection error."))
      (u8 "s1") (u8 "ratio") None mundo_ej
    = (inl (HTTPException 500
              (u8 "Error al llamar al modelo: Connection error.")),
       anotar
         (EvModelo
            (peticion_de
               (construir_prompt (u8 "ratio")
                  (Sesion.texto_sentencia sesion_ej) None))) mundo_ej))
    by (vm_compute; reflexivity).
  exact (X9_analizar_sesion_falla reloj_ej
           (modelo_caido (u8 "Connection error.")) (u8 "s1") (u8 "ratio") None
           sesion_ej mundo_ej _ _ Hs Hrun).
Defined.

(** X10. A continuation request on a stored session whose provider call
    answers builds the prompt from the stored text, reads no PDF and
    draws no identifier, answers with the stored file name and the
    provider's first choice, and adds one entry with the passed category
    and question and that answer at the end of the session's history;
    the rest of the session and every other session stay as they were. *)
Theorem X10_analizar_sesion_exito (utcnow_isoformat : nat -> str)
    (chat_completions_create : nat -> peticion -> respuesta_modelo)
    (session_id tipo : str) (pregunta : option str) (s : Sesion.t)
    (content : str) (resto : list str) (w : mundo) :
  SESIONES w !! session_id = Some s ->
  chat_completions_create (length (traza w))
    (peticion_de (construir_prompt tipo (Sesion.texto_sentencia s) pregunta))
    = CreateReturns (content :: resto) ->
  exists r w' s' c,
    analizar_sesion utcnow_isoformat chat_completions_create session_id tipo
      pregunta w = (inr r, w')
    /\ rs_session_id r = session_id
    /\ rs_tipo_analisis r = tipo
    /\ rs_archivo r = Sesion.archivo s
    /\ rs_resultado r = content
    /\ SESIONES w' !! session_id = Some s'
    /\ solo_historial s s' [c]
    /\ campos c = (tipo, pregunta, content)
    /\ otras_intactas session_id w w'
    /\ traza w'
       = traza w
         ++ [EvModelo
               (peticion_de
                  (construir_prompt tipo (Sesion.texto_sentencia s) pregunta));
             EvUtcnow].
Proof.
  intros Hs Hm.
  destruct (analizar_sesion_existente utcnow_isoformat chat_completions_create
              w session_id s tipo pregunta Hs)
    as [(causa & Hf & _) | (content' & resto' & c & Hm' & Hc & Hok)].
  - exfalso. rewrite llamar_modelo_eq, Hm in Hf. discriminate Hf.
  - rewrite Hm in Hm'. injection Hm' as <- <-.
    do 2 eexists. exists (con_consulta c s), c.
    split; [exact Hok |]. simpl.
    repeat split; try done.
    + apply lookup_insert_eq.
    + intros otra Hne. by apply lookup_insert_ne.
    + by rewrite <- app_assoc.
Qed.

Lemma X10_analizar_sesion_exito_witness :
  exists r w' s' c,
    analizar_sesion reloj_ej modelo_ej (u8 "s1") (u8 "ratio") None mundo_ej
      = (inr r, w')
    /\ rs_session_id r = u8 "s1"
    /\ rs_tipo_analisis r = u8 "ratio"
    /\ rs_archivo r = Sesion.archivo sesion_ej
    /\ rs_resultado r = u8 "Respuesta del modelo."
    /\ SESIONES w' !! u8 "s1" = Some s'
    /\ solo_historial sesion_ej s' [c]
    /\ campos c = (u8 "ratio", None, u8 "Respuesta del modelo.")
    /\ otras_intactas (u8 "s1") mundo_ej w'
    /\ traza w'
       = traza mundo_ej
         ++ [EvModelo
               (peticion_de
                  (construir_prompt (u8 "ratio")
                     (Sesion.texto_sentencia sesion_ej) None));
             EvUtcnow].
Proof.
  assert (Hs : SESIONES mundo_ej !! u8 "s1" = Some sesion_ej)
    by (vm_compute; reflexivity).
  exact (X10_analizar_sesion_exito reloj_ej modelo_ej (u8 "s1") (u8 "ratio")
           None sesion_ej (u8 "Respuesta del modelo.") [] mundo_ej Hs
           eq_refl).
Defined.

(** * Further properties of the batch route *)

Section MasLote.

Variable chat_completions_create : nat -> peticion -> respuesta_modelo.
Variables (tipo : str) (pregunta : option str).

Lemma bucle_lote_sesiones (archivos : list UploadFile) :
  forall (rs : list resultado_lote) (w : mundo),
    SESIONES (snd (bucle_lote chat_completions_create tipo pregunta archivos
                     rs w)) = SESIONES w.
Proof.
  induction archivos as [|a resto IH]; intros rs w; simpl; [done |].
  unfold bind at 1. rewrite leer_pdf_texto.
  destruct (texto_pdf a) as [e | texto]; [done |].
  unfold bind at 1. rewrite llamar_modelo_eq.
  destruct (chat_completions_create _ _) as [e | [| content otros]];
    [done | done |].
  by rewrite IH.
Qed.

Lemma bucle_lote_exito (archivos : list UploadFile) :
  forall (rs rs' : list resultado_lote) (w w' : mundo),
    bucle_lote chat_completions_create tipo pregunta archivos rs w
      = (inr rs', w') ->
    exists nuevos textos,
      rs' = rs ++ nuevos
      /\ lote_archivo <$> nuevos = filename <$> archivos
      /\ Forall2 (fun a texto => texto_pdf a = inr texto) archivos textos
      /\ traza w'
         = traza w
           ++ concat
                (zip_with
                   (fun a texto =>
                      [EvPdf (filename a);
                       EvModelo
                         (peticion_de
                            (construir_prompt tipo
                               (slice_to MAX_CHARS_SENTENCIA texto)
                               pregunta))])
                   archivos textos).
Proof.
  induction archivos as [|a resto IH]; intros rs rs' w w'; simpl.
  - intros [= <- <-]. exists [], []. by rewrite !app_nil_r.
  - unfold bind at 1. rewrite leer_pdf_texto.
    destruct (texto_pdf a) as [e | texto] eqn:Ht;
      [cbv beta iota; discriminate |].
    unfold bind at 1. rewrite llamar_modelo_eq.
    destruct (chat_completions_create _ _) as [e | [| content otros]];
      [cbv beta iota; discriminate | cbv beta iota; discriminate |].
    intros H. apply IH in H as (nuevos & textos & -> & Hn & Ht' & Htr).
    exists ({| lote_archivo := filename a; lote_resultado := content |}
              :: nuevos), (texto :: textos).
    split; [by rewrite <- app_assoc |]. split; [by rewrite !fmap_cons, Hn |].
    split; [by constructor |].
    rewrite Htr. simpl. by rewrite <- !app_assoc.
Qed.

Lemma bucle_lote_ilegible (archivos : list UploadFile) :
  Exists (fun a => exists e, texto_pdf a = inl e) archivos ->
  forall (rs : list resultado_lote) (w : mundo),
    exists e,
      fst (bucle_lote chat_completions_create tipo pregunta archivos rs w)
      = inl e.
Proof.
  induction archivos as [|a resto IH]; intros Hex rs w;
    [by apply Exists_nil in Hex |].
  simpl. unfold bind at 1. rewrite leer_pdf_texto.
  destruct (texto_pdf a) as [e | texto] eqn:Ht; [by eexists |].
  apply Exists_cons in Hex as [[e He] | Hex]; [congruence |].
  unfold bind at 1. rewrite llamar_modelo_eq.
  destruct (chat_completions_create _ _) as [e | [| content otros]];
    [by eexists | by eexists |].
  by apply IH.
Qed.

Lemma bucle_lote_total (archivos : list UploadFile) :
  Forall (fun a => exists texto, texto_pdf a = inr texto) archivos ->
  (forall n p, exists content otros,
      chat_completions_create n p = CreateReturns (content :: otros)) ->
  forall (rs : list resultado_lote) (w : mundo),
    exists rs' w',
      bucle_lote chat_completions_create tipo pregunta archivos rs w
      = (inr rs', w').
Proof.
  intros Hl Hm. induction Hl as [|a resto [texto Ht] _ IH]; intros rs w; simpl.
  - by do 2 eexists.
  - unfold bind at 1. rewrite leer_pdf_texto, Ht.
    unfold bind at 1. rewrite llamar_modelo_eq.
    destruct (Hm (length (traza (anotar (EvPdf (filename a)) w)))
                (peticion_de
                   (construir_prompt tipo
                      (slice_to MAX_CHARS_SENTENCIA texto) pregunta)))
      as (content & otros & ->).
    apply IH.
Qed.

Lemma bucle_lote_traza (archivos : list UploadFile) :
  forall (rs : list resultado_lote) (w : mundo),
    (length (traza w)
     <= length (traza (snd (bucle_lote chat_completions_create tipo pregunta
                              archivos rs w))))%nat.
Proof.
  induction archivos as [|a resto IH]; intros rs w; simpl; [done |].
  unfold bind at 1. rewrite leer_pdf_texto.
  destruct (texto_pdf a) as [e | texto];
    [simpl; rewrite length_app; lia |].
  unfold bind at 1. rewrite llamar_modelo_eq.
  destruct (chat_completions_create _ _) as [e | [| content otros]];
    [simpl; rewrite !length_app; lia | simpl; rewrite !length_app; lia |].
  etrans; [| apply IH]. simpl. rewrite !length_app. lia.
Qed.

Lemma analizar_lote_traza (archivos : list UploadFile) (w : mundo) :
  (length (traza w)
   <= length (traza (snd (analizar_lote chat_completions_create tipo
                            archivos pregunta w))))%nat.
Proof.
  unfold analizar_lote.
  destruct (Z.of_nat (length archivos) >? MAX_FILES_LOTE); [done |].
  pose proof (bucle_lote_traza archivos [] w) as H.
  unfold bind.
  by destruct (bucle_lote chat_completions_create tipo pregunta archivos []
                 w) as [[e | rs] w'].
Qed.

Lemma analizar_lote_sesiones (archivos : list UploadFile) (w : mundo) :
  SESIONES (snd (analizar_lote chat_completions_create tipo archivos
                   pregunta w)) = SESIONES w.
Proof.
  unfold analizar_lote.
  destruct (Z.of_nat (length archivos) >? MAX_FILES_LOTE); [done |].
  pose proof (bucle_lote_sesiones archivos [] w) as H.
  unfold bind.
  by destruct (bucle_lote chat_completions_create tipo pregunta archivos []
                 w) as [[e | rs] w'].
Qed.

End MasLote.

(** X11. The batch route never touches the session store, whatever it
    answers: it creates no session and records no query. *)
Theorem X11_lote_sin_sesiones
    (chat_completions_create : nat -> peticion -> respuesta_modelo)
    (tipo : str) (archivos : list UploadFile) (pregunta : option str)
    (w : mundo) :
  SESIONES (snd (analizar_lote chat_completions_create tipo archivos
                   pregunta w)) = SESIONES w.
Proof.
  exact (analizar_lote_sesiones chat_completions_create tipo pregunta
           archivos w).
Qed.

(** X12. A batch that is answered reports the category it was asked
    for, the number of files, and one result per file in the order of
    the files, each under its file name; it had at most 10 files. *)
Theorem X12_lote_respuesta
    (chat_completions_create : nat -> peticion -> respuesta_modelo)
    (tipo : str) (archivos : list UploadFile) (pregunta : option str)
    (w w' : mundo) (r : respuesta_lote) :
  analizar_lote chat_completions_create tipo archivos pregunta w
    = (inr r, w') ->
  lote_tipo_analisis r = tipo
  /\ numero_sentencias r = Z.of_nat (length archivos)
  /\ lote_archivo <$> resultados r = filename <$> archivos
  /\ length (resultados r) = length archivos
  /\ Z.of_nat (length archivos) <= 10.
Proof.
  unfold analizar_lote, MAX_FILES_LOTE.
  destruct (Z.gtb_spec (Z.of_nat (length archivos)) 10) as [Hgt | Hle];
    [discriminate |].
  unfold bind.
  destruct (bucle_lote chat_completions_create tipo pregunta archivos [] w)
    as [[e | rs] w1] eqn:Hb; [discriminate |].
  intros [= <- <-]. simpl.
  apply bucle_lote_exito in Hb as (nuevos & textos & -> & Hn & _ & _).
  simpl. repeat split; try done.
  by rewrite <- (length_fmap lote_archivo), Hn, length_fmap.
Qed.

Lemma X12_lote_respuesta_witness :
  numero_sentencias
    {| lote_tipo_analisis := u8 "fallo";
       numero_sentencias := 2;
       resultados :=
         [ {| lote_archivo := u8 "a.pdf";
              lote_resultado := u8 "Respuesta del modelo." |};
           {| lote_archivo := u8 "a.pdf";
              lote_resultado := u8 "Respuesta del modelo." |} ] |}
  = Z.of_nat (length [pdf_ej; pdf_ej]).
Proof.
  assert (H : analizar_lote modelo_ej (u8 "fallo") [pdf_ej; pdf_ej] None
                mundo_vacio
              = (inr {| lote_tipo_analisis := u8 "fallo";
                        numero_sentencias := 2;
                        resultados :=
                          [ {| lote_archivo := u8 "a.pdf";
                               lote_resultado := u8 "Respuesta del modelo." |};
                            {| lote_archivo := u8 "a.pdf";
                               lote_resultado := u8 "Respuesta del modelo." |} ]
                     |},
                 snd (analizar_lote modelo_ej (u8 "fallo") [pdf_ej; pdf_ej]
                        None mundo_vacio)))
    by (vm_compute; reflexivity).
  exact (proj1 (proj2 (X12_lote_respuesta modelo_ej (u8 "fallo")
                         [pdf_ej; pdf_ej] None mundo_vacio _ _ H))).
Defined.

(** X13. A batch with a file that cannot be read is not answered: the
    request ends in an error and gives no partial results, also when
    the files before it were read and answered. *)
Theorem X13_lote_aborta
    (chat_completions_create : nat -> peticion -> respuesta_modelo)
    (tipo : str) (archivos : list UploadFile) (pregunta : option str)
    (w : mundo) :
  Exists (fun a => exists e, texto_pdf a = inl e) archivos ->
  exists e,
    fst (analizar_lote chat_completions_create tipo archivos pregunta w)
    = inl e.
Proof.
  intros Hex. unfold analizar_lote.
  destruct (Z.of_nat (length archivos) >? MAX_FILES_LOTE); [by eexists |].
  destruct (bucle_lote_ilegible chat_completions_create tipo pregunta
              archivos Hex [] w) as [e He].
  exists e. unfold bind.
  destruct (bucle_lote chat_completions_create tipo pregunta archivos [] w)
    as [[e' | rs] w']; simpl in *; congruence.
Qed.

Lemma X13_lote_aborta_witness :
  exists e,
    fst (analizar_lote modelo_ej (u8 "fallo") [pdf_ej; pdf_roto; pdf_ej] None
           mundo_vacio) = inl e.
Proof.
  assert (H : Exists (fun a => exists e, texto_pdf a = inl e)
                [pdf_ej; pdf_roto; pdf_ej]).
  { apply Exists_cons_tl, Exists_cons_hd.
    exists (u8 "EOF marker not found"). reflexivity. }
  exact (X13_lote_aborta modelo_ej (u8 "fallo") [pdf_ej; pdf_roto; pdf_ej]
           None mundo_vacio H).
Defined.

(** X14. In a batch that is answered every file was read and its
    prompt sent to the provider once, file after file in the order of
    the files; each prompt is built from that file's own text cut to
    6000 characters, with the category and question of the request. *)
Theorem X14_lote_traza
    (chat_completions_create : nat -> peticion -> respuesta_modelo)
    (tipo : str) (archivos : list UploadFile) (pregunta : option str)
    (w w' : mundo) (r : respuesta_lote) :
  analizar_lote chat_completions_create tipo archivos pregunta w
    = (inr r, w') ->
  exists textos,
    Forall2 (fun a texto => texto_pdf a = inr texto) archivos textos
    /\ traza w'
       = traza w
         ++ concat
              (zip_with
                 (fun a texto =>
                    [EvPdf (filename a);
                     EvModelo
                       (peticion_de
                          (construir_prompt tipo
                             (slice_to MAX_CHARS_SENTENCIA texto) pregunta))])
                 archivos textos).
Proof.
  unfold analizar_lote.
  destruct (Z.of_nat (length archivos) >? MAX_FILES_LOTE); [discriminate |].
  unfold bind.
  destruct (bucle_lote chat_completions_create tipo pregunta archivos [] w)
    as [[e | rs] w1] eqn:Hb; [discriminate |].
  intros [= <- <-].
  apply bucle_lote_exito in Hb as (nuevos & textos & _ & _ & Ht & Htr).
  exists textos. split; [exact Ht | exact Htr].
Qed.

Lemma X14_lote_traza_witness :
  exists textos,
    Forall2 (fun a texto => texto_pdf a = inr texto) [pdf_ej; pdf_ej] textos
    /\ traza (snd (analizar_lote modelo_ej (u8 "fallo") [pdf_ej; pdf_ej] None
                     mundo_vacio))
       = traza mundo_vacio
         ++ concat
              (zip_with
                 (fun a texto =>
                    [EvPdf (filename a);
                     EvModelo
                       (peticion_de
                          (construir_prompt (u8 "fallo")
                             (slice_to MAX_CHARS_SENTENCIA texto) None))])
                 [pdf_ej; pdf_ej] textos).
Proof.
  assert (H : analizar_lote modelo_ej (u8 "fallo") [pdf_ej; pdf_ej] None
                mundo_vacio
              = (inr {| lote_tipo_analisis := u8 "fallo";
                        numero_sentencias := 2;
                        resultados :=
                          [ {| lote_archivo := u8 "a.pdf";
                               lote_resultado := u8 "Respuesta del modelo." |};
                            {| lote_archivo := u8 "a.pdf";
                               lote_resultado := u8 "Respuesta del modelo." |} ]
                     |},
                 snd (analizar_lote modelo_ej (u8 "fallo") [pdf_ej; pdf_ej]
                        None mundo_vacio)))
    by (vm_compute; reflexivity).
  exact (X14_lote_traza modelo_ej (u8 "fallo") [pdf_ej; pdf_ej] None
           mundo_vacio _ _ H).
Defined.

(** X15. A batch of at most 10 files that can all be read, with a
    provider that answers every call, is answered. *)
Theorem X15_lote_total
    (chat_completions_create : nat -> peticion -> respuesta_modelo)
    (tipo : str) (archivos : list UploadFile) (pregunta : option str)
    (w : mundo) :
  Z.of_nat (length archivos) <= 10 ->
  Forall (fun a => exists texto, texto_pdf a = inr texto) archivos ->
  (forall n p, exists content otros,
      chat_completions_create n p = CreateReturns (content :: otros)) ->
  exists r w',
    analizar_lote chat_completions_create tipo archivos pregunta w
    = (inr r, w').
Proof.
  intros Hn Hl Hm. unfold analizar_lote, MAX_FILES_LOTE.
  destruct (Z.gtb_spec (Z.of_nat (length archivos)) 10) as [Hgt | Hle];
    [lia |].
  destruct (bucle_lote_total chat_completions_create tipo pregunta archivos
              Hl Hm [] w) as (rs & w' & Hb).
  unfold bind. rewrite Hb. by do 2 eexists.
Qed.

Lemma X15_lote_total_witness :
  exists r w',
    analizar_lote modelo_ej (u8 "fallo") [pdf_ej; pdf_ej] None mundo_vacio
    = (inr r, w').
Proof.
  assert (Hn : Z.of_nat (length [pdf_ej; pdf_ej]) <= 10)
    by (vm_compute; discriminate).
  assert (Hl : Forall (fun a => exists texto, texto_pdf a = inr texto)
                 [pdf_ej; pdf_ej]).
  { repeat constructor; eexists; reflexivity. }
  assert (Hm : forall n p, exists content otros,
               modelo_ej n p = CreateReturns (content :: otros)).
  { intros n p. do 2 eexists. reflexivity. }
  exact (X15_lote_total modelo_ej (u8 "fallo") [pdf_ej; pdf_ej] None
           mundo_vacio Hn Hl Hm).
Defined.

(** * Further properties of the upload routes *)

Section MasSubida.

Variable str_uuid4 : nat -> str.
Variable utcnow_isoformat : nat -> str.
Variable chat_completions_create : nat -> peticion -> respuesta_modelo.

Lemma crear_y_registrar_mundo (texto nombre tipo : str)
    (pregunta : option str) (resultado : str) (w : mundo) :
  exists session_id w1 w2 s c,
    crear_sesion str_uuid4 utcnow_isoformat texto nombre w
      = (inr session_id, w1)
    /\ registrar_consulta utcnow_isoformat session_id tipo pregunta
         resultado w1 = (inr (), w2)
    /\ SESIONES w2 = <[session_id := s]> (SESIONES w)
    /\ traza w2 = traza w ++ [EvUuid4; EvUtcnow; EvUtcnow]
    /\ Sesion.archivo s = nombre
    /\ Sesion.texto_sentencia s = texto
    /\ Sesion.consultas s = [c]
    /\ campos c = (tipo, pregunta, resultado)
    /\ session_id = str_uuid4 (length (traza w)).
Proof.
  do 5 eexists. split; [reflexivity |].
  unfold registrar_consulta. simpl. rewrite lookup_insert_eq.
  split; [reflexivity |]. simpl. rewrite insert_insert_eq.
  split; [reflexivity |]. split; [by rewrite <- !app_assoc | done].
Qed.

Lemma longitud_recorte (texto : str) :
  Z.of_nat (length (slice_to MAX_CHARS_SENTENCIA texto)) <= 6000.
Proof.
  unfold slice_to, MAX_CHARS_SENTENCIA.
  change (6000 <? 0) with false. cbv iota. rewrite length_take. lia.
Qed.

Lemma llamar_modelo_tras_pdf (prompt : str) (archivo : UploadFile)
    (content : str) (otros : list str) (w : mundo) :
  chat_completions_create (length (traza w) + 1)%nat (peticion_de prompt)
    = CreateReturns (content :: otros) ->
  llamar_modelo chat_completions_create prompt
    (anotar (EvPdf (filename archivo)) w)
  = (inr content,
     anotar (EvModelo (peticion_de prompt))
       (anotar (EvPdf (filename archivo)) w)).
Proof.
  intros Hm. rewrite llamar_modelo_eq. simpl traza. rewrite length_app.
  simpl length. by rewrite Hm.
Qed.

(** [/analizar_json], case by case. *)
Lemma subida_json_casos (tipo : str) (archivo : UploadFile)
    (pregunta : option str) (w : mundo) :
  let w1 := anotar (EvPdf (filename archivo)) w in
  match texto_pdf archivo with
  | inl e =>
    analizar_json str_uuid4 utcnow_isoformat chat_completions_create tipo
      archivo pregunta w
    = (inl (HTTPException 400 (u8 "No se pudo leer el PDF: " ++ e)), w1)
  | inr texto =>
    let recorte := slice_to MAX_CHARS_SENTENCIA texto in
    let prompt := construir_prompt tipo recorte pregunta in
    let w2 := anotar (EvModelo (peticion_de prompt)) w1 in
    (exists causa,
       let err :=
         HTTPException 500 (u8 "Error al llamar al modelo: " ++ causa) in
       llamar_modelo chat_completions_create prompt w1 = (inl err, w2)
       /\ analizar_json str_uuid4 utcnow_isoformat chat_completions_create
            tipo archivo pregunta w = (inl err, w2))
    \/ (exists content session_id s c w3 w5,
         llamar_modelo chat_completions_create prompt w1 = (inr content, w2)
         /\ crear_sesion str_uuid4 utcnow_isoformat recorte
              (filename archivo) w2 = (inr session_id, w3)
         /\ registrar_consulta utcnow_isoformat session_id tipo pregunta
              content w3 = (inr (), w5)
         /\ analizar_json str_uuid4 utcnow_isoformat chat_completions_create
              tipo archivo pregunta w
            = (inr {| json_session_id := session_id;
                      json_tipo_analisis := tipo;
                      json_archivo := filename archivo;
                      json_resultado := content |}, w5)
         /\ SESIONES w5 = <[session_id := s]> (SESIONES w)
         /\ traza w5
            = traza w
              ++ [EvPdf (filename archivo); EvModelo (peticion_de prompt);
                  EvUuid4; EvUtcnow; EvUtcnow]
         /\ Sesion.archivo s = filename archivo
         /\ Sesion.texto_sentencia s = recorte
         /\ Sesion.consultas s = [c]
         /\ campos c = (tipo, pregunta, content)
         /\ exists n, (length (traza w) <= n)%nat
                      /\ session_id = str_uuid4 n)
  end.
Proof.
  intros w1. pose proof (leer_pdf_texto archivo w) as Hl. fold w1 in Hl.
  destruct (texto_pdf archivo) as [e | texto].
  { unfold analizar_json. by apply bind_error. }
  intros recorte prompt w2.
  destruct (llamar_modelo_casos chat_completions_create prompt w1)
    as [(causa & Hm) | (content & Hm)]; fold w2 in Hm.
  - left. exists causa. split; [exact Hm |].
    unfold analizar_json. erewrite bind_ok by exact Hl. by apply bind_error.
  - right.
    destruct (crear_y_registrar_mundo recorte (filename archivo) tipo pregunta
                content w2)
      as (id & w3 & w5 & s & c & Hc & Hr & Hs & Ht & Ha & Htx & Hh & Hf
          & Hid).
    exists content, id, s, c, w3, w5. split; [exact Hm |].
    split; [exact Hc |]. split; [exact Hr |]. split.
    { unfold analizar_json. erewrite bind_ok by exact Hl.
      erewrite bind_ok by exact Hm. erewrite bind_ok by exact Hc.
      erewrite bind_ok by exact Hr. reflexivity. }
    repeat split; try done.
    + rewrite Ht. unfold w2, w1. simpl. by rewrite <- !app_assoc.
    + exists (length (traza w2)). split; [| exact Hid].
      unfold w2, w1. simpl. rewrite !length_app. lia.
Qed.

Variable template_response : nat -> str -> contexto -> respuesta_plantilla.

Lemma TemplateResponse_eq (nombre : str) (c : contexto) (w : mundo) :
  TemplateResponse template_response nombre c w
  = (match template_response (length (traza w)) nombre c with
     | TemplateRaises e => inl (OtraExcepcion e)
     | TemplateReturns body => inr body
     end, anotar (EvPlantilla nombre c) w).
Proof.
  unfold TemplateResponse. by destruct (template_response _ _ _).
Qed.

(** [/analizar] from the point where [/analizar_json] would answer. *)
Lemma analizar_tras_registrar (tipo : str) (archivo : UploadFile)
    (pregunta : option str) (texto content session_id : str)
    (w w1 w2 w3 w5 : mundo) :
  leer_pdf archivo w = (inr texto, w1) ->
  llamar_modelo chat_completions_create
    (construir_prompt tipo (slice_to MAX_CHARS_SENTENCIA texto) pregunta) w1
    = (inr content, w2) ->
  crear_sesion str_uuid4 utcnow_isoformat
    (slice_to MAX_CHARS_SENTENCIA texto) (filename archivo) w2
    = (inr session_id, w3) ->
  registrar_consulta utcnow_isoformat session_id tipo pregunta content w3
    = (inr (), w5) ->
  let c := {| ctx_resultado := Some content;
              ctx_session_id := Some session_id |} in
  analizar str_uuid4 utcnow_isoformat chat_completions_create
    template_response tipo archivo pregunta w
  = (match template_response (length (traza w5)) (u8 "index.html") c with
     | TemplateRaises e => inl (OtraExcepcion e)
     | TemplateReturns body =>
       inr {| html_resultado := content; html_session_id := session_id;
              html_body := body |}
     end, anotar (EvPlantilla (u8 "index.html") c) w5).
Proof.
  intros Hl Hm Hc Hr c. unfold analizar.
  erewrite bind_ok by exact Hl. erewrite bind_ok by exact Hm.
  erewrite bind_ok by exact Hc. erewrite bind_ok by exact Hr.
  fold c. unfold bind. rewrite TemplateResponse_eq.
  by destruct (template_response _ _ _).
Qed.

(** The store and the trace after [/analizar], against those after
    [/analizar_json] on the same request. *)
Lemma analizar_mundo (tipo : str) (archivo : UploadFile)
    (pregunta : option str) (w : mundo) :
  let wj := snd (analizar_json str_uuid4 utcnow_isoformat
                   chat_completions_create tipo archivo pregunta w) in
  let wh := snd (analizar str_uuid4 utcnow_isoformat chat_completions_create
                   template_response tipo archivo pregunta w) in
  SESIONES wh = SESIONES wj
  /\ exists resto, traza wh = traza wj ++ resto.
Proof.
  pose proof (subida_json_casos tipo archivo pregunta w) as H.
  cbv zeta in H. cbv zeta.
  pose proof (leer_pdf_texto archivo w) as Hl.
  destruct (texto_pdf archivo) as [e | texto].
  { rewrite H. unfold analizar. rewrite (bind_error _ _ _ _ _ Hl).
    split; [done |]. exists []. by rewrite app_nil_r. }
  destruct H as [(causa & Hm & ->)
                | (content & id & s & c & w3 & w5 & Hm & Hc & Hr & -> & _)].
  - unfold analizar. erewrite bind_ok by exact Hl.
    rewrite (bind_error _ _ _ _ _ Hm).
    split; [done |]. exists []. by rewrite app_nil_r.
  - rewrite (analizar_tras_registrar tipo archivo pregunta texto content id
               w _ _ w3 w5 Hl Hm Hc Hr).
    split; [done |]. by eexists.
Qed.

End MasSubida.

(** X16. In [/analizar] the page is made after the session was stored:
    when the PDF can be read and the provider answers but the template
    fails, the request ends in the error of the template while the
    store already holds the session with the cut text and the answered
    query; [/analizar_json] answers the same request, with the same
    store. *)
Theorem X16_plantilla_falla (str_uuid4 utcnow_isoformat : nat -> str)
    (chat_completions_create : nat -> peticion -> respuesta_modelo)
    (template_response : nat -> str -> contexto -> respuesta_plantilla)
    (tipo : str) (archivo : UploadFile) (pregunta : option str)
    (texto content causa : str) (otros : list str) (w : mundo) :
  texto_pdf archivo = inr texto ->
  chat_completions_create (length (traza w) + 1)%nat
    (peticion_de
       (construir_prompt tipo (slice_to MAX_CHARS_SENTENCIA texto) pregunta))
    = CreateReturns (content :: otros) ->
  (forall n c,
      template_response n (u8 "index.html") c = TemplateRaises causa) ->
  exists session_id s c wh wj,
    analizar str_uuid4 utcnow_isoformat chat_completions_create
      template_response tipo archivo pregunta w
    = (inl (OtraExcepcion causa), wh)
    /\ analizar_json str_uuid4 utcnow_isoformat chat_completions_create tipo
         archivo pregunta w
       = (inr {| json_session_id := session_id;
                 json_tipo_analisis := tipo;
                 json_archivo := filename archivo;
                 json_resultado := content |}, wj)
    /\ SESIONES wh = <[session_id := s]> (SESIONES w)
    /\ SESIONES wj = SESIONES wh
    /\ Sesion.archivo s = filename archivo
    /\ Sesion.texto_sentencia s = slice_to MAX_CHARS_SENTENCIA texto
    /\ Sesion.consultas s = [c]
    /\ campos c = (tipo, pregunta, content).
Proof.
  intros Ht Hm Htpl.
  pose proof (subida_json_casos str_uuid4 utcnow_isoformat
                chat_completions_create tipo archivo pregunta w) as H.
  cbv zeta in H. rewrite Ht in H.
  pose proof (llamar_modelo_tras_pdf chat_completions_create
                (construir_prompt tipo (slice_to MAX_CHARS_SENTENCIA texto)
                   pregunta) archivo content otros w Hm) as Hll.
  pose proof (leer_pdf_texto archivo w) as Hl. rewrite Ht in Hl.
  destruct H as [(causa' & Hf & _)
                | (content' & id & s & c & w3 & w5 & Hok & Hc & Hr & Hj & Hs
                   & _ & Ha & Htx & Hh & Hcam & _)].
  { rewrite Hll in Hf. discriminate Hf. }
  rewrite Hll in Hok. injection Hok as <-.
  exists id, s, c. do 2 eexists.
  split.
  { rewrite (analizar_tras_registrar str_uuid4 utcnow_isoformat
               chat_completions_create template_response tipo archivo
               pregunta texto content id w _ _ w3 w5 Hl Hll Hc Hr).
    by rewrite Htpl. }
  split; [exact Hj |]. done.
Qed.

Lemma X16_plantilla_falla_witness :
  exists session_id s c wh wj,
    analizar uuid_ej reloj_ej modelo_ej plantilla_rota (u8 "fallo") pdf_ej
      None mundo_ej
    = (inl (OtraExcepcion (u8 "index.html")), wh)
    /\ analizar_json uuid_ej reloj_ej modelo_ej (u8 "fallo") pdf_ej None
         mundo_ej
       = (inr {| json_session_id := session_id;
                 json_tipo_analisis := u8 "fallo";
                 json_archivo := filename pdf_ej;
                 json_resultado := u8 "Respuesta del modelo." |}, wj)
    /\ SESIONES wh = <[session_id := s]> (SESIONES mundo_ej)
    /\ SESIONES wj = SESIONES wh
    /\ Sesion.archivo s = filename pdf_ej
    /\ Sesion.texto_sentencia s
       = slice_to MAX_CHARS_SENTENCIA (u8 "STS 123/2020")
    /\ Sesion.consultas s = [c]
    /\ campos c = (u8 "fallo", None, u8 "Respuesta del modelo.").
Proof.
  assert (Ht : texto_pdf pdf_ej = inr (u8 "STS 123/2020"))
    by (vm_compute; reflexivity).
  exact (X16_plantilla_falla uuid_ej reloj_ej modelo_ej plantilla_rota
           (u8 "fallo") pdf_ej None (u8 "STS 123/2020")
           (u8 "Respuesta del modelo.") (u8 "index.html") [] mundo_ej Ht
           eq_refl (fun _ _ => eq_refl)).
Defined.

(** X17. An upload whose PDF can be read and whose provider call
    answers is answered with the provider's first choice and a session
    identifier; under that identifier the store then holds the file
    name, the text cut to 6000 characters and the one query just
    answered, and the calls made are, in order: the PDF read, the
    provider call for the prompt built from the cut text, the drawing of
    the identifier and two clock readings. *)
Theorem X17_subida_con_exito (str_uuid4 utcnow_isoformat : nat -> str)
    (chat_completions_create : nat -> peticion -> respuesta_modelo)
    (tipo : str) (archivo : UploadFile) (pregunta : option str)
    (texto content : str) (otros : list str) (w : mundo) :
  texto_pdf archivo = inr texto ->
  chat_completions_create (length (traza w) + 1)%nat
    (peticion_de
       (construir_prompt tipo (slice_to MAX_CHARS_SENTENCIA texto) pregunta))
    = CreateReturns (content :: otros) ->
  exists session_id s c w',
    analizar_json str_uuid4 utcnow_isoformat chat_completions_create tipo
      archivo pregunta w
    = (inr {| json_session_id := session_id;
              json_tipo_analisis := tipo;
              json_archivo := filename archivo;
              json_resultado := content |}, w')
    /\ SESIONES w' = <[session_id := s]> (SESIONES w)
    /\ Sesion.archivo s = filename archivo
    /\ Sesion.texto_sentencia s = slice_to MAX_CHARS_SENTENCIA texto
    /\ Z.of_nat (length (Sesion.texto_sentencia s)) <= 6000
    /\ Sesion.consultas s = [c]
    /\ campos c = (tipo, pregunta, content)
    /\ traza w'
       = traza w
         ++ [EvPdf (filename archivo);
             EvModelo
               (peticion_de
                  (construir_prompt tipo
                     (slice_to MAX_CHARS_SENTENCIA texto) pregunta));
             EvUuid4; EvUtcnow; EvUtcnow].
Proof.
  intros Ht Hm.
  pose proof (subida_json_casos str_uuid4 utcnow_isoformat
                chat_completions_create tipo archivo pregunta w) as H.
  cbv zeta in H. rewrite Ht in H.
  pose proof (llamar_modelo_tras_pdf chat_completions_create
                (construir_prompt tipo (slice_to MAX_CHARS_SENTENCIA texto)
                   pregunta) archivo content otros w Hm) as Hll.
  destruct H as [(causa & Hf & _)
                | (content' & id & s & c & w3 & w5 & Hok & _ & _ & Hj & Hs
                   & Htr & Ha & Htx & Hh & Hc & _)].
  { rewrite Hll in Hf. discriminate Hf. }
  rewrite Hll in Hok. injection Hok as <-.
  exists id, s, c, w5. repeat split; try done.
  rewrite Htx. apply longitud_recorte.
Qed.

Lemma X17_subida_con_exito_witness :
  exists session_id s c w',
    analizar_json uuid_ej reloj_ej modelo_ej (u8 "fallo") pdf_ej None mundo_ej
    = (inr {| json_session_id := session_id;
              json_tipo_analisis := u8 "fallo";
              json_archivo := filename pdf_ej;
              json_resultado := u8 "Respuesta del modelo." |}, w')
    /\ SESIONES w' = <[session_id := s]> (SESIONES mundo_ej)
    /\ Sesion.archivo s = filename pdf_ej
    /\ Sesion.texto_sentencia s
       = slice_to MAX_CHARS_SENTENCIA (u8 "STS 123/2020")
    /\ Z.of_nat (length (Sesion.texto_sentencia s)) <= 6000
    /\ Sesion.consultas s = [c]
    /\ campos c = (u8 "fallo", None, u8 "Respuesta del modelo.")
    /\ traza w'
       = traza mundo_ej
         ++ [EvPdf (filename pdf_ej);
             EvModelo
               (peticion_de
                  (construir_prompt (u8 "fallo")
                     (slice_to MAX_CHARS_SENTENCIA (u8 "STS 123/2020")) None));
             EvUuid4; EvUtcnow; EvUtcnow].
Proof.
  assert (Ht : texto_pdf pdf_ej = inr (u8 "STS 123/2020"))
    by (vm_compute; reflexivity).
  exact (X17_subida_con_exito uuid_ej reloj_ej modelo_ej (u8 "fallo") pdf_ej
           None (u8 "STS 123/2020") (u8 "Respuesta del modelo.") []
           mundo_ej Ht eq_refl).
Defined.

(** X18. An upload with category ["otro"] and a missing or blank
    question still calls the provider, once the PDF was read: the
    request it sends carries the fixed no-question prompt, which holds
    nothing of the document. *)
Theorem X18_sin_pregunta_llama_al_modelo
    (str_uuid4 utcnow_isoformat : nat -> str)
    (chat_completions_create : nat -> peticion -> respuesta_modelo)
    (template_response : nat -> str -> contexto -> respuesta_plantilla)
    (archivo : UploadFile) (pregunta : option str) (texto : str)
    (w : mundo) :
  texto_pdf archivo = inr texto ->
  en_blanco pregunta ->
  (exists resto,
     traza (snd (analizar_json str_uuid4 utcnow_isoformat
                   chat_completions_create (u8 "otro") archivo pregunta w))
     = traza w
       ++ [EvPdf (filename archivo);
           EvModelo (peticion_de PROMPT_SIN_PREGUNTA)] ++ resto)
  /\ (exists resto,
       traza (snd (analizar str_uuid4 utcnow_isoformat
                     chat_completions_create template_response (u8 "otro")
                     archivo pregunta w))
       = traza w
         ++ [EvPdf (filename archivo);
             EvModelo (peticion_de PROMPT_SIN_PREGUNTA)] ++ resto).
Proof.
  intros Ht Hb.
  assert (Hj : exists resto,
     traza (snd (analizar_json str_uuid4 utcnow_isoformat
                   chat_completions_create (u8 "otro") archivo pregunta w))
     = traza w
       ++ [EvPdf (filename archivo);
           EvModelo (peticion_de PROMPT_SIN_PREGUNTA)] ++ resto).
  { pose proof (subida_json_casos str_uuid4 utcnow_isoformat
                  chat_completions_create (u8 "otro") archivo pregunta w)
      as H.
    cbv zeta in H. rewrite Ht in H.
    apply sin_pregunta_spec in Hb.
    rewrite construir_prompt_otro, Hb in H.
    destruct H as [(causa & _ & ->)
                  | (content & id & s & c & w3 & w5 & _ & _ & _ & -> & _
                     & Htr & _)].
    - exists []. simpl. by rewrite <- !app_assoc.
    - exists [EvUuid4; EvUtcnow; EvUtcnow]. exact Htr. }
  split; [exact Hj |].
  destruct Hj as [resto Hj].
  destruct (analizar_mundo str_uuid4 utcnow_isoformat chat_completions_create
              template_response (u8 "otro") archivo pregunta w)
    as [_ [mas Hh]].
  exists (resto ++ mas). rewrite Hh, Hj. by rewrite <- !app_assoc.
Qed.

Lemma X18_sin_pregunta_llama_al_modelo_witness :
  exists resto,
    traza (snd (analizar_json uuid_ej reloj_ej modelo_ej (u8 "otro") pdf_ej
                  (Some (u8 "  ")) mundo_ej))
    = traza mundo_ej
      ++ [EvPdf (filename pdf_ej);
          EvModelo (peticion_de PROMPT_SIN_PREGUNTA)] ++ resto.
Proof.
  assert (Ht : texto_pdf pdf_ej = inr (u8 "STS 123/2020"))
    by (vm_compute; reflexivity).
  assert (Hb : en_blanco (Some (u8 "  ")))
    by (vm_compute; repeat constructor).
  exact (proj1 (X18_sin_pregunta_llama_al_modelo uuid_ej reloj_ej modelo_ej
                  plantilla_ej pdf_ej (Some (u8 "  ")) (u8 "STS 123/2020")
                  mundo_ej Ht Hb)).
Defined.

(** * Properties of runs of requests *)

Section Servidor.

Variable str_uuid4 : nat -> str.
Variable utcnow_isoformat : nat -> str.
Variable chat_completions_create : nat -> peticion -> respuesta_modelo.
Variable template_response : nat -> str -> contexto -> respuesta_plantilla.

(** What one request can do to the store: nothing, put a session with a
    one-query history under an identifier drawn during the request, or
    add one entry to the history of a session that is there. *)
Lemma atender_sesiones (r : solicitud) (w : mundo) :
  SESIONES (atender str_uuid4 utcnow_isoformat chat_completions_create
              template_response r w) = SESIONES w
  \/ (exists n s c,
        (length (traza w) <= n)%nat
        /\ SESIONES
             (atender str_uuid4 utcnow_isoformat chat_completions_create
                template_response r w)
           = <[str_uuid4 n := s]> (SESIONES w)
        /\ Z.of_nat (length (Sesion.texto_sentencia s)) <= MAX_CHARS_SENTENCIA
        /\ Sesion.consultas s = [c])
  \/ (exists session_id s c,
        SESIONES w !! session_id = Some s
        /\ SESIONES
             (atender str_uuid4 utcnow_isoformat chat_completions_create
                template_response r w)
           = <[session_id := con_consulta c s]> (SESIONES w)).
Proof.
  assert (Hjson : forall tipo archivo pregunta,
            SESIONES (snd (analizar_json str_uuid4 utcnow_isoformat
                             chat_completions_create tipo archivo pregunta w))
            = SESIONES w
            \/ exists n s c,
                 (length (traza w) <= n)%nat
                 /\ SESIONES
                      (snd (analizar_json str_uuid4 utcnow_isoformat
                              chat_completions_create tipo archivo pregunta
                              w))
                    = <[str_uuid4 n := s]> (SESIONES w)
                 /\ Z.of_nat (length (Sesion.texto_sentencia s))
                    <= MAX_CHARS_SENTENCIA
                 /\ Sesion.consultas s = [c]).
  { intros tipo archivo pregunta.
    pose proof (subida_json_casos str_uuid4 utcnow_isoformat
                  chat_completions_create tipo archivo pregunta w) as H.
    cbv zeta in H. destruct (texto_pdf archivo) as [e | texto].
    - rewrite H. by left.
    - destruct H as [(causa & _ & ->)
                    | (content & id & s & c & w3 & w5 & _ & _ & _ & -> & Hs
                       & _ & _ & Htx & Hh & _ & n & Hn & ->)]; [by left |].
      right. exists n, s, c. split; [exact Hn |]. split; [exact Hs |].
      split; [| exact Hh]. rewrite Htx. apply longitud_recorte. }
  destruct r as [| tipo archivo pregunta | tipo archivo pregunta
                 | tipo archivos pregunta | id tipo pregunta | id];
    unfold atender.
  - left. unfold home. by rewrite TemplateResponse_eq.
  - destruct (analizar_mundo str_uuid4 utcnow_isoformat
                chat_completions_create template_response tipo archivo
                pregunta w) as [-> _].
    destruct (Hjson tipo archivo pregunta) as [H | H]; [by left | by right; left].
  - destruct (Hjson tipo archivo pregunta) as [H | H]; [by left | by right; left].
  - left. apply analizar_lote_sesiones.
  - destruct (SESIONES w !! id) as [s|] eqn:Hs.
    + destruct (analizar_sesion_existente utcnow_isoformat
                  chat_completions_create w id s tipo pregunta Hs)
        as [(causa & _ & ->) | (content & resto & c & _ & _ & ->)];
        [by left |].
      right; right. by exists id, s, c.
    + rewrite (analizar_sesion_ausente utcnow_isoformat
                 chat_completions_create w id tipo pregunta Hs). by left.
  - rewrite ver_sesion_eq. by left.
Qed.

(** The trace only grows. *)
Lemma atender_traza (r : solicitud) (w : mundo) :
  (length (traza w)
   <= length (traza (atender str_uuid4 utcnow_isoformat
                       chat_completions_create template_response r w)))%nat.
Proof.
  assert (Hjson : forall tipo archivo pregunta,
            (length (traza w)
             <= length (traza (snd (analizar_json str_uuid4 utcnow_isoformat
                                      chat_completions_create tipo archivo
                                      pregunta w))))%nat).
  { intros tipo archivo pregunta.
    pose proof (subida_json_casos str_uuid4 utcnow_isoformat
                  chat_completions_create tipo archivo pregunta w) as H.
    cbv zeta in H. destruct (texto_pdf archivo) as [e | texto].
    - rewrite H. simpl. rewrite length_app. lia.
    - destruct H as [(causa & _ & ->)
                    | (content & id & s & c & w3 & w5 & _ & _ & _ & -> & _
                       & Htr & _)]; simpl.
      + rewrite !length_app. lia.
      + rewrite Htr, length_app. lia. }
  destruct r as [| tipo archivo pregunta | tipo archivo pregunta
                 | tipo archivos pregunta | id tipo pregunta | id];
    unfold atender.
  - unfold home. rewrite TemplateResponse_eq. simpl. rewrite length_app. lia.
  - destruct (analizar_mundo str_uuid4 utcnow_isoformat
                chat_completions_create template_response tipo archivo
                pregunta w) as [_ [resto ->]].
    rewrite length_app. specialize (Hjson tipo archivo pregunta). lia.
  - apply Hjson.
  - apply analizar_lote_traza.
  - destruct (SESIONES w !! id) as [s|] eqn:Hs.
    + destruct (analizar_sesion_existente utcnow_isoformat
                  chat_completions_create w id s tipo pregunta Hs)
        as [(causa & _ & ->) | (content & resto & c & _ & _ & ->)];
        simpl; rewrite !length_app; lia.
    + by rewrite (analizar_sesion_ausente utcnow_isoformat
                    chat_completions_create w id tipo pregunta Hs).
  - by rewrite ver_sesion_eq.
Qed.

Lemma atender_almacen_ok (r : solicitud) (w : mundo) :
  almacen_ok w ->
  almacen_ok (atender str_uuid4 utcnow_isoformat chat_completions_create
                template_response r w).
Proof.
  unfold almacen_ok. intros Hok.
  destruct (atender_sesiones r w)
    as [-> | [(n & s & c & _ & -> & Hl & Hh) | (id & s & c & Hs & ->)]];
    [done | |].
  - apply map_Forall_insert_2; [| done]. split; [done |]. by rewrite Hh.
  - apply map_Forall_insert_2; [| done].
    destruct (Hok id s Hs) as [Hl _]. split; [done |]. simpl.
    by destruct (Sesion.consultas s).
Qed.

Lemma atender_no_borra (r : solicitud) (w : mundo) (session_id : str) :
  is_Some (SESIONES w !! session_id) ->
  is_Some
    (SESIONES (atender str_uuid4 utcnow_isoformat chat_completions_create
                 template_response r w) !! session_id).
Proof.
  intros Hs.
  destruct (atender_sesiones r w)
    as [-> | [(n & s & c & _ & -> & _) | (id & s & c & _ & ->)]];
    [done | |]; rewrite lookup_insert_is_Some.
  - destruct (decide (str_uuid4 n = session_id)); [by left | by right].
  - destruct (decide (id = session_id)); [by left | by right].
Qed.

Lemma atender_conserva (r : solicitud) (w : mundo) (session_id : str)
    (s : Sesion.t) :
  (forall n, (length (traza w) <= n)%nat -> str_uuid4 n <> session_id) ->
  SESIONES w !! session_id = Some s ->
  exists s' cs,
    SESIONES (atender str_uuid4 utcnow_isoformat chat_completions_create
                template_response r w) !! session_id = Some s'
    /\ solo_historial s s' cs.
Proof.
  intros Hid Hs.
  destruct (atender_sesiones r w)
    as [-> | [(n & s1 & c & Hn & -> & _) | (id & s1 & c & Hs1 & ->)]].
  - exists s, []. unfold solo_historial. by rewrite app_nil_r.
  - exists s, []. rewrite lookup_insert_ne by by apply Hid.
    unfold solo_historial. by rewrite app_nil_r.
  - destruct (decide (id = session_id)) as [-> | Hne].
    + rewrite lookup_insert_eq. rewrite Hs in Hs1. injection Hs1 as <-.
      by exists (con_consulta c s), [c].
    + exists s, []. rewrite lookup_insert_ne by done.
      unfold solo_historial. by rewrite app_nil_r.
Qed.

End Servidor.

(** X19. From a store in which every text has at most 6000 characters
    and every session has a query in its history, any run of requests
    leads to such a store again; the store of a fresh process is one. *)
Theorem X19_almacen_ok (str_uuid4 utcnow_isoformat : nat -> str)
    (chat_completions_create : nat -> peticion -> respuesta_modelo)
    (template_response : nat -> str -> contexto -> respuesta_plantilla)
    (rs : list solicitud) (w : mundo) :
  almacen_ok w ->
  almacen_ok
    (servir str_uuid4 utcnow_isoformat chat_completions_create
       template_response rs w).
Proof.
  revert w. induction rs as [|r rs IH]; intros w Hok; [done |].
  apply IH. by apply atender_almacen_ok.
Qed.

Lemma X19_almacen_ok_witness :
  almacen_ok
    (servir uuid_ej reloj_ej modelo_ej plantilla_ej
       [PostAnalizarJson (u8 "fallo") pdf_ej None;
        PostAnalizarSesion (u8 "s2") (u8 "ratio") None;
        GetSesion (u8 "s2")] mundo_vacio).
Proof.
  assert (H : almacen_ok mundo_vacio) by apply map_Forall_empty.
  exact (X19_almacen_ok uuid_ej reloj_ej modelo_ej plantilla_ej
           [PostAnalizarJson (u8 "fallo") pdf_ej None;
            PostAnalizarSesion (u8 "s2") (u8 "ratio") None;
            GetSesion (u8 "s2")] mundo_vacio H).
Defined.

(** X20. No request removes a session: an identifier that is in the
    store is still in it after any run of requests. *)
Theorem X20_sesiones_no_se_borran (str_uuid4 utcnow_isoformat : nat -> str)
    (chat_completions_create : nat -> peticion -> respuesta_modelo)
    (template_response : nat -> str -> contexto -> respuesta_plantilla)
    (rs : list solicitud) (w : mundo) (session_id : str) :
  is_Some (SESIONES w !! session_id) ->
  is_Some
    (SESIONES (servir str_uuid4 utcnow_isoformat chat_completions_create
                 template_response rs w) !! session_id).
Proof.
  revert w. induction rs as [|r rs IH]; intros w Hs; [done |].
  apply IH. by apply atender_no_borra.
Qed.

Lemma X20_sesiones_no_se_borran_witness :
  is_Some
    (SESIONES
       (servir uuid_ej reloj_ej modelo_ej plantilla_ej
          [PostAnalizar (u8 "fallo") pdf_ej None;
           PostAnalizarLote (u8 "ratio") [pdf_ej; pdf_roto] None]
          mundo_ej) !! u8 "s1").
Proof.
  assert (H : is_Some (SESIONES mundo_ej !! u8 "s1")).
  { exists sesion_ej. vm_compute. reflexivity. }
  exact (X20_sesiones_no_se_borran uuid_ej reloj_ej modelo_ej plantilla_ej
           [PostAnalizar (u8 "fallo") pdf_ej None;
            PostAnalizarLote (u8 "ratio") [pdf_ej; pdf_roto] None]
           mundo_ej (u8 "s1") H).
Defined.

(** X21. As long as no identifier drawn from now on equals the
    identifier of a stored session, that session keeps its text, its
    file name and its creation time through any run of requests, and its
    history keeps the entries it had, in place, new ones coming after
    them. Identifiers drawn before, the session's own among them, are
    not constrained. *)
Theorem X21_sesion_inmutable (str_uuid4 utcnow_isoformat : nat -> str)
    (chat_completions_create : nat -> peticion -> respuesta_modelo)
    (template_response : nat -> str -> contexto -> respuesta_plantilla)
    (rs : list solicitud) (w : mundo) (session_id : str) (s : Sesion.t) :
  (forall n, (length (traza w) <= n)%nat -> str_uuid4 n <> session_id) ->
  SESIONES w !! session_id = Some s ->
  exists s' cs,
    SESIONES (servir str_uuid4 utcnow_isoformat chat_completions_create
                template_response rs w) !! session_id = Some s'
    /\ solo_historial s s' cs.
Proof.
  revert w s. induction rs as [|r rs IH]; intros w s Hid Hs.
  - exists s, []. split; [done |]. unfold solo_historial.
    by rewrite app_nil_r.
  - destruct (atender_conserva str_uuid4 utcnow_isoformat
                chat_completions_create template_response r w session_id s
                Hid Hs)
      as (s1 & cs1 & Hs1 & H1 & H2 & H3 & H4).
    assert (Hid1 : forall n,
              (length (traza (atender str_uuid4 utcnow_isoformat
                                chat_completions_create template_response r
                                w)) <= n)%nat ->
              str_uuid4 n <> session_id).
    { intros n Hn. apply Hid.
      pose proof (atender_traza str_uuid4 utcnow_isoformat
                    chat_completions_create template_response r w). lia. }
    destruct (IH _ _ Hid1 Hs1) as (s2 & cs2 & Hs2 & G1 & G2 & G3 & G4).
    exists s2, (cs1 ++ cs2). split; [exact Hs2 |].
    unfold solo_historial. rewrite G1, G2, G3, G4, H1, H2, H3, H4.
    by rewrite <- app_assoc.
Qed.

Lemma X21_sesion_inmutable_witness :
  exists s s' cs,
    SESIONES mundo_subido !! u8 "s2" = Some s
    /\ SESIONES
         (servir uuid_dos reloj_ej modelo_ej plantilla_ej
            [PostAnalizar (u8 "ratio") pdf_ej None;
             PostAnalizarSesion (u8 "s2") (u8 "ratio") None] mundo_subido)
         !! u8 "s2" = Some s'
    /\ solo_historial s s' cs.
Proof.
  assert (Hid : forall n,
            (length (traza mundo_subido) <= n)%nat ->
            uuid_dos n <> u8 "s2").
  { intros n Hn. vm_compute in Hn. unfold uuid_dos.
    destruct (Nat.leb_spec n 2) as [Hle | Hgt]; [lia |].
    vm_compute. discriminate. }
  assert (Hs : exists s, SESIONES mundo_subido !! u8 "s2" = Some s)
    by (vm_compute; eexists; reflexivity).
  destruct Hs as [s Hs].
  destruct (X21_sesion_inmutable uuid_dos reloj_ej modelo_ej plantilla_ej
              [PostAnalizar (u8 "ratio") pdf_ej None;
               PostAnalizarSesion (u8 "s2") (u8 "ratio") None]
              mundo_subido (u8 "s2") s Hid Hs) as (s' & cs & H1 & H2).
  exists s, s', cs. split; [exact Hs |]. split; [exact H1 | exact H2].
Defined.

(** * Upload, continuation and inspection together *)

Section Recorrido.

Variable str_uuid4 : nat -> str.
Variable utcnow_isoformat : nat -> str.
Variable chat_completions_create : nat -> peticion -> respuesta_modelo.

Hypothesis responde :
  forall n p, exists content otros,
    chat_completions_create n p = CreateReturns (content :: otros).

Lemma llamar_modelo_responde (prompt : str) (w : mundo) :
  exists content,
    llamar_modelo chat_completions_create prompt w
    = (inr content, anotar (EvModelo (peticion_de prompt)) w).
Proof.
  rewrite llamar_modelo_eq.
  destruct (responde (length (traza w)) (peticion_de prompt))
    as (content & otros & ->).
  by exists content.
Qed.

Lemma subida_responde (tipo : str) (archivo : UploadFile)
    (pregunta : option str) (texto : str) (w : mundo) :
  texto_pdf archivo = inr texto ->
  exists content session_id s c w',
    analizar_json str_uuid4 utcnow_isoformat chat_completions_create tipo
      archivo pregunta w
    = (inr {| json_session_id := session_id;
              json_tipo_analisis := tipo;
              json_archivo := filename archivo;
              json_resultado := content |}, w')
    /\ SESIONES w' = <[session_id := s]> (SESIONES w)
    /\ Sesion.archivo s = filename archivo
    /\ Sesion.texto_sentencia s = slice_to MAX_CHARS_SENTENCIA texto
    /\ Sesion.consultas s = [c]
    /\ campos c = (tipo, pregunta, content).
Proof.
  intros Ht.
  pose proof (subida_json_casos str_uuid4 utcnow_isoformat
                chat_completions_create tipo archivo pregunta w) as H.
  cbv zeta in H. rewrite Ht in H.
  destruct H as [(causa & Hf & _)
                | (content & id & s & c & w3 & w5 & _ & _ & _ & Hj & Hs & _
                   & Ha & Htx & Hh & Hc & _)].
  - destruct (llamar_modelo_responde
                (construir_prompt tipo (slice_to MAX_CHARS_SENTENCIA texto)
                   pregunta) (anotar (EvPdf (filename archivo)) w))
      as [content Hok].
    rewrite Hok in Hf. discriminate Hf.
  - by exists content, id, s, c, w5.
Qed.

Lemma continuacion_responde (session_id tipo : str) (pregunta : option str)
    (s : Sesion.t) (w : mundo) :
  SESIONES w !! session_id = Some s ->
  exists content c,
    campos c = (tipo, pregunta, content)
    /\ analizar_sesion utcnow_isoformat chat_completions_create session_id
         tipo pregunta w
       = (inr {| rs_session_id := session_id;
                 rs_tipo_analisis := tipo;
                 rs_archivo := Sesion.archivo s;
                 rs_resultado := content;
                 consultas_previas :=
                   Z.of_nat (length (Sesion.consultas s ++ [c])) |},
          con_sesiones (insert session_id (con_consulta c s))
            (anotar EvUtcnow
               (anotar
                  (EvModelo
                     (peticion_de
                        (construir_prompt tipo (Sesion.texto_sentencia s)
                           pregunta))) w))).
Proof.
  intros Hs.
  destruct (analizar_sesion_existente utcnow_isoformat chat_completions_create
              w session_id s tipo pregunta Hs)
    as [(causa & Hf & _) | (content & resto & c & _ & Hc & Hok)].
  - destruct (llamar_modelo_responde
                (construir_prompt tipo (Sesion.texto_sentencia s) pregunta) w)
      as [content Hok].
    rewrite Hok in Hf. discriminate Hf.
  - by exists content, c.
Qed.

End Recorrido.

(** X22. Upload, continue, inspect: with a PDF that can be read and a
    provider that answers, an upload followed by a continuation request
    with the identifier it returned is answered from the stored text,
    without reading a PDF again, under the file name of the upload and
    with [consultas_previas] = 2; inspecting the session then shows the
    cut text, the file name and the two queries in the order they were
    made, each with its category, question and answer. *)
Theorem X22_subir_continuar_ver (str_uuid4 utcnow_isoformat : nat -> str)
    (chat_completions_create : nat -> peticion -> respuesta_modelo)
    (tipo1 tipo2 : str) (archivo : UploadFile) (p1 p2 : option str)
    (texto : str) (w : mundo) :
  texto_pdf archivo = inr texto ->
  (forall n p, exists content otros,
      chat_completions_create n p = CreateReturns (content :: otros)) ->
  exists r1 w1 r2 w2 s c1 c2,
    analizar_json str_uuid4 utcnow_isoformat chat_completions_create tipo1
      archivo p1 w = (inr r1, w1)
    /\ analizar_sesion utcnow_isoformat chat_completions_create
         (json_session_id r1) tipo2 p2 w1 = (inr r2, w2)
    /\ ver_sesion (json_session_id r1) w2 = (inr s, w2)
    /\ rs_archivo r2 = filename archivo
    /\ consultas_previas r2 = 2
    /\ Sesion.archivo s = filename archivo
    /\ Sesion.texto_sentencia s = slice_to MAX_CHARS_SENTENCIA texto
    /\ Sesion.consultas s = [c1; c2]
    /\ campos c1 = (tipo1, p1, json_resultado r1)
    /\ campos c2 = (tipo2, p2, rs_resultado r2)
    /\ traza w2
       = traza w1
         ++ [EvModelo
               (peticion_de
                  (construir_prompt tipo2
                     (slice_to MAX_CHARS_SENTENCIA texto) p2));
             EvUtcnow].
Proof.
  intros Ht Hm.
  destruct (subida_responde str_uuid4 utcnow_isoformat chat_completions_create
              Hm tipo1 archivo p1 texto w Ht)
    as (content1 & id & s1 & c1 & w1 & Hj & Hs1 & Ha & Htx & Hh & Hc1).
  assert (Hl : SESIONES w1 !! id = Some s1)
    by (rewrite Hs1; apply lookup_insert_eq).
  destruct (continuacion_responde utcnow_isoformat chat_completions_create Hm
              id tipo2 p2 s1 w1 Hl) as (content2 & c2 & Hc2 & Hk).
  do 4 eexists. exists (con_consulta c2 s1), c1, c2.
  split; [exact Hj |]. split; [exact Hk |].
  split; [apply ver_sesion_existente, lookup_insert_eq |].
  simpl. rewrite Hh, Htx. repeat split; try done.
  by rewrite <- app_assoc.
Qed.

Lemma X22_subir_continuar_ver_witness :
  exists r1 w1 r2 w2 s c1 c2,
    analizar_json uuid_ej reloj_ej modelo_ej (u8 "fallo") pdf_ej None
      mundo_vacio = (inr r1, w1)
    /\ analizar_sesion reloj_ej modelo_ej (json_session_id r1) (u8 "otro")
         (Some (u8 "¿Hay costas?")) w1 = (inr r2, w2)
    /\ ver_sesion (json_session_id r1) w2 = (inr s, w2)
    /\ rs_archivo r2 = filename pdf_ej
    /\ consultas_previas r2 = 2
    /\ Sesion.archivo s = filename pdf_ej
    /\ Sesion.texto_sentencia s
       = slice_to MAX_CHARS_SENTENCIA (u8 "STS 123/2020")
    /\ Sesion.consultas s = [c1; c2]
    /\ campos c1 = (u8 "fallo", None, json_resultado r1)
    /\ campos c2 = (u8 "otro", Some (u8 "¿Hay costas?"), rs_resultado r2)
    /\ traza w2
       = traza w1
         ++ [EvModelo
               (peticion_de
                  (construir_prompt (u8 "otro")
                     (slice_to MAX_CHARS_SENTENCIA (u8 "STS 123/2020"))
                     (Some (u8 "¿Hay costas?"))));
             EvUtcnow].
Proof.
  assert (Ht : texto_pdf pdf_ej = inr (u8 "STS 123/2020"))
    by (vm_compute; reflexivity).
  assert (Hm : forall n p, exists content otros,
               modelo_ej n p = CreateReturns (content :: otros)).
  { intros n p. do 2 eexists. reflexivity. }
  exact (X22_subir_continuar_ver uuid_ej reloj_ej modelo_ej (u8 "fallo")
           (u8 "otro") pdf_ej None (Some (u8 "¿Hay costas?"))
           (u8 "STS 123/2020") mundo_vacio Ht Hm).
Defined.

(** X23. Uploads are not deduplicated: uploading the same file twice
    makes a session each time, and when the two identifiers drawn differ
    the store afterwards holds both, each with the file name, the cut
    text and its own one-query history. *)
Theorem X23_sin_deduplicar (str_uuid4 utcnow_isoformat : nat -> str)
    (chat_completions_create : nat -> peticion -> respuesta_modelo)
    (tipo : str) (archivo : UploadFile) (pregunta : option str)
    (texto : str) (w : mundo) :
  texto_pdf archivo = inr texto ->
  (forall n p, exists content otros,
      chat_completions_create n p = CreateReturns (content :: otros)) ->
  exists r1 w1 r2 w2,
    analizar_json str_uuid4 utcnow_isoformat chat_completions_create tipo
      archivo pregunta w = (inr r1, w1)
    /\ analizar_json str_uuid4 utcnow_isoformat chat_completions_create tipo
         archivo pregunta w1 = (inr r2, w2)
    /\ (json_session_id r1 <> json_session_id r2 ->
        exists s1 s2,
          SESIONES w2 !! json_session_id r1 = Some s1
          /\ SESIONES w2 !! json_session_id r2 = Some s2
          /\ Sesion.archivo s1 = filename archivo
          /\ Sesion.archivo s2 = filename archivo
          /\ Sesion.texto_sentencia s1 = slice_to MAX_CHARS_SENTENCIA texto
          /\ Sesion.texto_sentencia s2 = slice_to MAX_CHARS_SENTENCIA texto
          /\ length (Sesion.consultas s1) = 1%nat
          /\ length (Sesion.consultas s2) = 1%nat).
Proof.
  intros Ht Hm.
  destruct (subida_responde str_uuid4 utcnow_isoformat chat_completions_create
              Hm tipo archivo pregunta texto w Ht)
    as (content1 & id1 & s1 & c1 & w1 & Hj1 & Hs1 & Ha1 & Htx1 & Hh1 & _).
  destruct (subida_responde str_uuid4 utcnow_isoformat chat_completions_create
              Hm tipo archivo pregunta texto w1 Ht)
    as (content2 & id2 & s2 & c2 & w2 & Hj2 & Hs2 & Ha2 & Htx2 & Hh2 & _).
  do 4 eexists. split; [exact Hj1 |]. split; [exact Hj2 |].
  simpl. intros Hne. exists s1, s2. rewrite Hs2, Hs1.
  rewrite lookup_insert_ne by done. rewrite !lookup_insert_eq.
  rewrite Hh1, Hh2. done.
Qed.

Lemma X23_sin_deduplicar_witness :
  exists r1 w1 r2 w2,
    analizar_json uuid_ej reloj_ej modelo_ej (u8 "fallo") pdf_ej None
      mundo_vacio = (inr r1, w1)
    /\ analizar_json uuid_ej reloj_ej modelo_ej (u8 "fallo") pdf_ej None w1
       = (inr r2, w2)
    /\ (json_session_id r1 <> json_session_id r2 ->
        exists s1 s2,
          SESIONES w2 !! json_session_id r1 = Some s1
          /\ SESIONES w2 !! json_session_id r2 = Some s2
          /\ Sesion.archivo s1 = filename pdf_ej
          /\ Sesion.archivo s2 = filename pdf_ej
          /\ Sesion.texto_sentencia s1
             = slice_to MAX_CHARS_SENTENCIA (u8 "STS 123/2020")
          /\ Sesion.texto_sentencia s2
             = slice_to MAX_CHARS_SENTENCIA (u8 "STS 123/2020")
          /\ length (Sesion.consultas s1) = 1%nat
          /\ length (Sesion.consultas s2) = 1%nat).
Proof.
  assert (Ht : texto_pdf pdf_ej = inr (u8 "STS 123/2020"))
    by (vm_compute; reflexivity).
  assert (Hm : forall n p, exists content otros,
               modelo_ej n p = CreateReturns (content :: otros)).
  { intros n p. do 2 eexists. reflexivity. }
  exact (X23_sin_deduplicar uuid_ej reloj_ej modelo_ej (u8 "fallo") pdf_ej
           None (u8 "STS 123/2020") mundo_vacio Ht Hm).
Defined.
